(** * Vincent's Med AI (Gemini edition): a shallow embedding of [app.py]

    The Streamlit script reads an API key, configures the Gemini client,
    collects a lab report (uploaded file or text area), builds a prompt and
    calls [safe_generate], a [tenacity]-wrapped call of
    [model.generate_content].  The script is embedded as a function from
    the things it reads (environment, widgets, the remote model, the random
    generator) to the list of things it does (Streamlit messages, client
    configuration, generation calls, sleeps). *)

From Stdlib Require Import List NArith ZArith QArith Qminmax Lqa Bool String Ascii Lia.
From Stdlib Require Import HexString.
From Equations Require Import Equations.
Import ListNotations.

Set Implicit Arguments.

(* ===================================================================== *)
(** ** Python [str] and [bytes] *)
(* ===================================================================== *)

Module Py.

(** A Python [str] is a sequence of Unicode code points. *)
Definition str := list N.

(** Code points of an ASCII literal of the source. *)
Definition lit (s : string) : str :=
  map N_of_ascii (list_ascii_of_string s).

(** The line feed written [\n] in the source's literals. *)
Definition LF : N := 10%N.

Local Open Scope N_scope.

(** [Py_UNICODE_ISSPACE]: the code points [str.strip()] removes and
    [str.isspace()] accepts. *)
Definition isspace (c : N) : bool :=
  ((0x09 <=? c) && (c <=? 0x0D))
  || ((0x1C <=? c) && (c <=? 0x20))
  || (c =? 0x85) || (c =? 0xA0) || (c =? 0x1680)
  || ((0x2000 <=? c) && (c <=? 0x200A))
  || (c =? 0x2028) || (c =? 0x2029) || (c =? 0x202F)
  || (c =? 0x205F) || (c =? 0x3000).

(** [str.lstrip()], [str.rstrip()] and [str.strip()] without argument. *)
Fixpoint lstrip (s : str) : str :=
  match s with
  | [] => []
  | c :: r => if isspace c then lstrip r else s
  end.

Definition rstrip (s : str) : str := rev (lstrip (rev s)).

Definition strip (s : str) : str := rstrip (lstrip s).

(** Truth value of a [str]: the empty string is false. *)
Definition truthy (s : str) : bool :=
  match s with [] => false | _ :: _ => true end.

(** Equality of code point sequences. *)
Fixpoint eqb (s t : str) : bool :=
  match s, t with
  | [], [] => true
  | a :: s', b :: t' => (a =? b) && eqb s' t'
  | _, _ => false
  end.

(** [s.startswith(p)]. *)
Fixpoint startswith (p s : str) : bool :=
  match p, s with
  | [], _ => true
  | a :: p', b :: s' => (a =? b) && startswith p' s'
  | _ :: _, [] => false
  end.

(** [word in s] on strings: [word] occurs as a contiguous slice of [s]. *)
Fixpoint contains (word s : str) : bool :=
  startswith word s
  || match s with
     | [] => false
     | _ :: s' => contains word s'
     end.

Section Lower.

(** [str.lower()] maps an ASCII string letter by letter; outside ASCII it
    applies the lower-case mapping of the Unicode database, which yields
    up to three code points and, for capital sigma, looks at the
    neighbours.  The database is not part of the program: it is taken as
    a parameter receiving, like [lower_ucs4], the whole string, the index
    and the code point. *)
Variable unicode_lower : str -> nat -> N -> list N.

Definition ascii_lower (c : N) : N :=
  if (0x41 <=? c) && (c <=? 0x5A) then c + 0x20 else c.

Definition lower_char (data : str) (i : nat) (c : N) : list N :=
  if c <? 0x80 then [ascii_lower c] else unicode_lower data i c.

Fixpoint lower_from (data : str) (i : nat) (rest : str) : str :=
  match rest with
  | [] => []
  | c :: rest' => lower_char data i c ++ lower_from data (S i) rest'
  end.

Definition lower (s : str) : str := lower_from s 0 s.

End Lower.

(** A lower-case table that leaves non-ASCII code points alone. *)
Definition keep_non_ascii : str -> nat -> N -> list N := fun _ _ c => [c].

(** [bytes.decode("utf-8")] with the default [errors="strict"]: the
    well-formed byte sequences of the Unicode standard; anything else
    raises [UnicodeDecodeError], here [None]. *)
Definition continuation (b : N) : bool := (0x80 <=? b) && (b <=? 0xBF).

Definition between (lo hi b : N) : bool := (lo <=? b) && (b <=? hi).

Definition payload (b : N) : N := N.land b 0x3F.

Definition push (c : N) (r : option str) : option str :=
  match r with Some s => Some (c :: s) | None => None end.

Fixpoint decode_utf8_N (bs : list N) : option str :=
  match bs with
  | [] => Some []
  | b0 :: t0 =>
    if b0 <? 0x80 then push b0 (decode_utf8_N t0)
    else if between 0xC2 0xDF b0 then
      match t0 with
      | b1 :: t1 =>
        if continuation b1
        then push (N.shiftl (N.land b0 0x1F) 6 + payload b1) (decode_utf8_N t1)
        else None
      | _ => None
      end
    else if between 0xE0 0xEF b0 then
      match t0 with
      | b1 :: b2 :: t2 =>
        if between (if b0 =? 0xE0 then 0xA0 else 0x80)
                   (if b0 =? 0xED then 0x9F else 0xBF) b1
           && continuation b2
        then push (N.shiftl (N.land b0 0x0F) 12 + N.shiftl (payload b1) 6
                   + payload b2)
                  (decode_utf8_N t2)
        else None
      | _ => None
      end
    else if between 0xF0 0xF4 b0 then
      match t0 with
      | b1 :: b2 :: b3 :: t3 =>
        if between (if b0 =? 0xF0 then 0x90 else 0x80)
                   (if b0 =? 0xF4 then 0x8F else 0xBF) b1
           && continuation b2 && continuation b3
        then push (N.shiftl (N.land b0 0x07) 18 + N.shiftl (payload b1) 12
                   + N.shiftl (payload b2) 6 + payload b3)
                  (decode_utf8_N t3)
        else None
      | _ => None
      end
    else None
  end.

Definition bytes := list Byte.byte.

Definition decode_utf8 (b : bytes) : option str :=
  decode_utf8_N (map Byte.to_N b).

(** ["%#x" % n], the way [Future.__repr__] writes an address. *)
Definition hex (n : N) : str := lit (HexString.of_N n).

End Py.

(* ===================================================================== *)
(** ** Exceptions and observable actions *)
(* ===================================================================== *)

(** An instance of a subclass of [Exception], as far as the program looks
    at it: [type(e).__name__] and [str(e)].  ([KeyboardInterrupt] and the
    other exceptions outside [Exception] are neither retried by tenacity
    nor caught by the script and are left out.) *)
Record Exception : Type := mkException {
  class_name : Py.str;
  message : Py.str
}.

(** What a run of the script does, in order. *)
Inductive action : Type :=
| st_error (body : Py.str)
| st_warning (body : Py.str)
| st_success (body : Py.str)
| st_write (body : Py.str)
| st_stop
| genai_configure (api_key : Py.str)
| generate_content (prompt : Py.str) (temperature : Q) (max_output_tokens : N)
| time_sleep (seconds : Q).

(** The prompts of the generation calls of a run, in order. *)
Fixpoint calls (tr : list action) : list Py.str :=
  match tr with
  | [] => []
  | generate_content p _ _ :: tr' => p :: calls tr'
  | _ :: tr' => calls tr'
  end.

(** The sleeps of a run, in order. *)
Fixpoint sleeps (tr : list action) : list Q :=
  match tr with
  | [] => []
  | time_sleep d :: tr' => d :: sleeps tr'
  | _ :: tr' => sleeps tr'
  end.

(** The texts a run displays with [st.write], in order. *)
Fixpoint written (tr : list action) : list Py.str :=
  match tr with
  | [] => []
  | st_write body :: tr' => body :: written tr'
  | _ :: tr' => written tr'
  end.

Definition is_configure (a : action) : bool :=
  match a with genai_configure _ => true | _ => false end.

(* ===================================================================== *)
(** ** tenacity: [retry], [stop_after_attempt], [wait_random_exponential] *)
(* ===================================================================== *)

Module Tenacity.

(** The [Future] of a failed attempt. *)
Record Future : Type := mkFuture {
  id : N;
  attempt_number : nat;
  exception : Exception
}.

(** [Future.__repr__] of a finished future holding an exception:
    ["<%s at %#x state=%s raised %s>"]. *)
Definition Future_repr (f : Future) : Py.str :=
  Py.lit "<Future at " ++ Py.hex (id f) ++ Py.lit " state=finished raised "
  ++ class_name (exception f) ++ Py.lit ">".

(** [RetryError(last_attempt)], raised when the stop condition holds and
    [reraise] keeps its default [False]. *)
Record RetryError : Type := mkRetryError { last_attempt : Future }.

(** [RetryError.__str__]: [f"{self.__class__.__name__}[{self.last_attempt}]"]. *)
Definition RetryError_str (e : RetryError) : Py.str :=
  Py.lit "RetryError[" ++ Future_repr (last_attempt e) ++ Py.lit "]".

(** [stop_after_attempt(n)]: [retry_state.attempt_number >= n]. *)
Definition stop_after_attempt (max_attempt_number n : nat) : bool :=
  (max_attempt_number <=? n)%nat.

(** [wait_exponential.__call__], for an attempt number [n >= 1]:
    [max(max(0, self.min), min(self.multiplier * self.exp_base ** (n - 1), self.max))]. *)
Definition wait_exponential (multiplier : Q) (exp_base : Z) (min max : Q)
    (n : nat) : Q :=
  Qmax (Qmax 0 min)
       (Qmin (multiplier * inject_Z (exp_base ^ (Z.of_nat n - 1))) max).

(** [random.uniform(a, b)] is [a + (b - a) * random()]; [u] is the draw. *)
Definition uniform (a b u : Q) : Q := a + (b - a) * u.

(** [wait_random_exponential.__call__] (multiplier 1, base 2):
    [random.uniform(self.min, high)] with [high] the exponential wait, as
    in the current releases of tenacity (older ones drew from
    [random.uniform(0, high)]).  Times are rationals, in seconds. *)
Definition wait_random_exponential (min max : Q) (u : Q) (n : nat) : Q :=
  uniform min (wait_exponential 1 2 min max n) u.

(** Keeps the equation of a test available to the termination proof. *)
Definition inspect {B : Type} (b : B) : { c : B | b = c } := exist _ b eq_refl.

Section Retrying.

Variable A : Type.
(** the argument of [stop_after_attempt] *)
Variable max_attempt_number : nat.
(** the wait strategy at an attempt number, its random draw included *)
Variable wait : nat -> Q.
(** what the wrapped function does, and returns or raises, when run for
    the attempt of a given number *)
Variable fn : nat -> list action * (A + Exception).
(** [id()] of the future of an attempt *)
Variable future_id : nat -> N.

(** [Retrying.__call__]: the loop [DoAttempt] / [DoSleep] of the
    decorator.  Every [Exception] is retried (the default
    [retry_if_exception_type()]); the loop ends on a result or when the
    stop condition holds after a failure. *)
Equations? call (n : nat) : list action * (A + RetryError)
  by wf (max_attempt_number - n)%nat lt :=
call n with fn n := {
  | (tr, inl result) => (tr, inl result)
  | (tr, inr e) with inspect (stop_after_attempt max_attempt_number n) := {
    | exist _ true _ =>
        (tr, inr (mkRetryError (mkFuture (future_id n) n e)))
    | exist _ false H =>
        let r := call (S n) in
        (tr ++ time_sleep (wait n) :: fst r, snd r)
    }
  }.
Proof.
  unfold stop_after_attempt in H. apply Nat.leb_gt in H. lia.
Qed.

End Retrying.

End Tenacity.

(* ===================================================================== *)
(** ** The script monad: Streamlit output and [st.stop()] *)
(* ===================================================================== *)

(** A step of the script either goes on with a value or has called
    [st.stop()], which ends the run. *)
Inductive control (A : Type) : Type :=
| Continue (a : A)
| Stopped.
Arguments Stopped {A}.

Definition script (A : Type) : Type := list action * control A.

Definition ret {A : Type} (a : A) : script A := ([], Continue a).

Definition bind {A B : Type} (m : script A) (k : A -> script B) : script B :=
  match m with
  | (tr, Continue a) => let r := k a in (tr ++ fst r, snd r)
  | (tr, Stopped) => (tr, Stopped)
  end.

Definition emit (a : action) : script unit := ([a], Continue tt).

Definition emit_all (tr : list action) : script unit := (tr, Continue tt).

Definition stop {A : Type} : script A := ([st_stop], Stopped).

Declare Scope script_scope.
Delimit Scope script_scope with script.
Notation "x <- m ;; k" := (bind m (fun x => k))
  (at level 61, m at next level, right associativity) : script_scope.
Notation "m ;; k" := (bind m (fun _ => k))
  (at level 61, right associativity) : script_scope.

(** The actions of a run. *)
Definition trace {A : Type} (m : script A) : list action := fst m.

(* ===================================================================== *)
(** ** What the script reads *)
(* ===================================================================== *)

Record world : Type := mkWorld {
  (** [os.getenv("GOOGLE_API_KEY")] after [load_dotenv()] *)
  GOOGLE_API_KEY : option Py.str;
  (** the exception [genai.configure] or [genai.GenerativeModel] raises, if any *)
  init_exception : option Exception;
  (** [uploaded_file.read()], when a file was uploaded *)
  uploaded_file : option Py.bytes;
  (** what [st.text_area] returns, given the [value] it is pre-filled with *)
  text_area : Py.str -> Py.str;
  (** whether [st.button] returns [True] *)
  button : bool;
  (** [model.generate_content(prompt, ...)] followed by [.text] at the
      attempt of a given number: the text, or the exception raised *)
  gemini : nat -> Py.str -> Py.str + Exception;
  (** [random.random()] as drawn for the wait after an attempt *)
  random : nat -> Q;
  (** [id()] of the [Future] of an attempt *)
  future_id : nat -> N
}.

(* ===================================================================== *)
(** ** app.py *)
(* ===================================================================== *)

Section App.

(** the Unicode lower-case table used by [str.lower()] *)
Variable unicode_lower : Py.str -> nat -> N -> list N.

Variable w : world.

Local Open Scope script_scope.

(** [# 1 Load the secret key] *)
Definition key_missing_message : Py.str :=
  0x274C%N :: Py.lit " Please set a GOOGLE_API_KEY in a .env file or Streamlit secret.".

Definition load_key : script Py.str :=
  match GOOGLE_API_KEY w with
  | Some google_key =>
      if Py.truthy google_key then ret google_key
      else emit (st_error key_missing_message) ;; stop
  | None => emit (st_error key_missing_message) ;; stop
  end.

(** [# 2 Configure Gemini] *)
Definition init_failed_message (e : Exception) : Py.str :=
  0x1F613%N :: Py.lit " Could not initialise Gemini: " ++ message e.

Definition configure (google_key : Py.str) : script unit :=
  emit (genai_configure google_key) ;;
  match init_exception w with
  | Some e => emit (st_error (init_failed_message e)) ;; stop
  | None => ret tt
  end.

(** [safe_generate]: the decorated body, run for one attempt. *)
Definition safe_generate_body (prompt : Py.str) (n : nat)
    : list action * (Py.str + Exception) :=
  ([generate_content prompt (25 # 100) 512],
   match gemini w n prompt with
   | inl text => inl (Py.strip text)
   | inr e => inr e
   end).

(** [@retry(wait=wait_random_exponential(min=12, max=60),
           stop=stop_after_attempt(4))]; the first attempt has number 1. *)
Definition safe_generate (prompt : Py.str)
    : list action * (Py.str + Tenacity.RetryError) :=
  Tenacity.call 4
    (fun n => Tenacity.wait_random_exponential 12 60 (random w n) n)
    (safe_generate_body prompt)
    (future_id w)
    1.

(** [# 4 File upload] *)
Definition unreadable_message : Py.str :=
  0x1F615%N :: Py.lit " I couldn't read that file. Please make sure it's plain text or CSV.".

Definition read_upload : script Py.str :=
  match uploaded_file w with
  | None => ret []
  | Some bytes_content =>
      match Py.decode_utf8 bytes_content with
      | Some file_text => ret file_text
      | None => emit (st_warning unreadable_message) ;; ret []
      end
  end.

(** [final_text = file_text if file_text.strip() else lab_text_input] *)
Definition final_text (file_text lab_text_input : Py.str) : Py.str :=
  if Py.truthy (Py.strip file_text) then file_text else lab_text_input.

(** [# 6 Handle button click] *)
Definition empty_message : Py.str :=
  Py.lit "Please upload a file or paste a lab result before clicking " ++ [0x1F60A%N].

Definition system_prompt : Py.str :=
  Py.lit "You are a compassionate medical doctor AI assistant. "
  ++ Py.lit "Explain lab results in simple terms. "
  ++ Py.lit "You may suggest general medicine classes or lifestyle tips, "
  ++ Py.lit "but do NOT give drug names or exact doses. "
  ++ Py.lit "Always remind the reader to confirm with a licensed doctor.".

Definition prompt_header : Py.str :=
  [Py.LF; Py.LF] ++ Py.lit "Here is the lab result:" ++ [Py.LF].

Definition prompt_footer : Py.str :=
  [Py.LF; Py.LF] ++ Py.lit "Explain and recommend.".

Definition full_prompt (final : Py.str) : Py.str :=
  system_prompt ++ prompt_header ++ final ++ prompt_footer.

Definition success_message : Py.str :=
  Py.lit "Here" ++ [0x2019%N] ++ Py.lit "s my draft explanation:".

Definition quota_message : Py.str :=
  [0x26A0%N; 0xFE0F%N]
  ++ Py.lit " Free Gemini quota reached or too many requests. Please wait a bit and try again.".

Definition generic_message (e : Py.str) : Py.str :=
  0x1F613%N :: Py.lit " Oops, something went wrong: " ++ e.

Definition keywords : list Py.str :=
  [Py.lit "quota"; Py.lit "rate"; Py.lit "limit"].

(** [any(word in str(e).lower() for word in ["quota", "rate", "limit"])] *)
Definition mentions_limit (str_e : Py.str) : bool :=
  existsb (fun word => Py.contains word (Py.lower unicode_lower str_e)) keywords.

(** The [except Exception as e] branch, on [str(e)]. *)
Definition failure_message (str_e : Py.str) : Py.str :=
  if mentions_limit str_e then quota_message else generic_message str_e.

Definition on_click (final : Py.str) : script unit :=
  (if negb (Py.truthy (Py.strip final))
   then emit (st_warning empty_message) ;; stop
   else ret tt) ;;
  match safe_generate (full_prompt final) with
  | (tr, inl answer) =>
      emit_all tr ;;
      emit (st_success success_message) ;;
      emit (st_write answer)
  | (tr, inr e) =>
      emit_all tr ;;
      emit (st_error (failure_message (Tenacity.RetryError_str e)))
  end.

(** The text the script resolves for submission. *)
Definition resolved (file_text : Py.str) : Py.str :=
  final_text file_text (text_area w file_text).

(** The input collector: the upload handling, the text area and the
    choice of the text to send. *)
Definition collect : script Py.str :=
  file_text <- read_upload ;;
  ret (resolved file_text).

(** The whole script.  The static page decoration (title, introduction,
    spinner, sidebar note) reads nothing and decides nothing, and is not
    recorded. *)
Definition app : script unit :=
  google_key <- load_key ;;
  configure google_key ;;
  final <- collect ;;
  if button w then on_click final else ret tt.

(** The value of [file_text] after the upload handling. *)
Definition file_text_of : Py.str :=
  match uploaded_file w with
  | None => []
  | Some bytes_content =>
      match Py.decode_utf8 bytes_content with
      | Some file_text => file_text
      | None => []
      end
  end.

End App.

(** Whether a string starts, or ends, with a white space character. *)
Definition leading_space (s : Py.str) : bool :=
  match s with
  | c :: _ => Py.isspace c
  | [] => false
  end.

Definition trailing_space (s : Py.str) : bool := leading_space (rev s).

(** The digits ["%#x"] writes after [0x]: [0-9a-f]. *)
Definition hexdigit (c : N) : bool :=
  ((48 <=? c) && (c <=? 57) || (97 <=? c) && (c <=? 102))%N.

(* ===================================================================== *)
(** ** Sample inputs *)
(* ===================================================================== *)

Definition sample_lab_text : Py.str := Py.lit "Hemoglobin A1C: 8.2% (High)".

(** The error the Gemini client raises on HTTP 429. *)
Definition quota_exceeded : Exception :=
  mkException (Py.lit "ResourceExhausted")
              (Py.lit "429 Resource has been exhausted (e.g. check quota).").

(** A run with a key, no upload, the sample text typed and the button
    clicked, in which the first [failures] attempts raise [quota_exceeded]
    and the next one answers [reply]. *)
Definition sample_world (failures : nat) (reply : Py.str) : world :=
  {| GOOGLE_API_KEY := Some (Py.lit "AIza-test-key");
     init_exception := None;
     uploaded_file := None;
     text_area := fun _ => sample_lab_text;
     button := true;
     gemini := fun n _ =>
       if (n <=? failures)%nat then inr quota_exceeded else inl reply;
     random := fun _ => 1 # 2;
     future_id := fun _ => 0x7f3a5c0b1d90%N |}.

Definition sample_reply : Py.str := Py.lit "Your A1C is elevated...".

(** The same run without the key. *)
Definition keyless_world : world :=
  {| GOOGLE_API_KEY := None;
     init_exception := None;
     uploaded_file := None;
     text_area := fun _ => sample_lab_text;
     button := true;
     gemini := fun _ _ => inl sample_reply;
     random := fun _ => 1 # 2;
     future_id := fun _ => 0x7f3a5c0b1d90%N |}.

(** A run in which the uploaded bytes are not UTF-8 and [typed] is in the
    text area. *)
Definition latin1_upload : Py.bytes := [Byte.x48; Byte.x62; Byte.xe9].

Definition upload_world (upload : Py.bytes) (typed : Py.str) : world :=
  {| GOOGLE_API_KEY := Some (Py.lit "AIza-test-key");
     init_exception := None;
     uploaded_file := Some upload;
     text_area := fun _ => typed;
     button := true;
     gemini := fun _ _ => inl sample_reply;
     random := fun _ => 1 # 2;
     future_id := fun _ => 0x7f3a5c0b1d90%N |}.

(* ===================================================================== *)
(** ** Further observations of a run *)
(* ===================================================================== *)

(** The messages a run shows with [st.error], in order. *)
Fixpoint errors (tr : list action) : list Py.str :=
  match tr with
  | [] => []
  | st_error body :: tr' => body :: errors tr'
  | _ :: tr' => errors tr'
  end.

(** The warnings a run shows with [st.warning], in order. *)
Fixpoint warnings (tr : list action) : list Py.str :=
  match tr with
  | [] => []
  | st_warning body :: tr' => body :: warnings tr'
  | _ :: tr' => warnings tr'
  end.

(** The keys [genai.configure] is called with, in order. *)
Fixpoint configured (tr : list action) : list Py.str :=
  match tr with
  | [] => []
  | genai_configure api_key :: tr' => api_key :: configured tr'
  | _ :: tr' => configured tr'
  end.

(** Whether the run shows the [st.success] banner. *)
Definition is_success (a : action) : bool :=
  match a with st_success _ => true | _ => false end.

(** The time a list of sleeps takes. *)
Definition total (l : list Q) : Q := fold_right Qplus 0 l.

(** Bytes that occur in no UTF-8 text: [0xC0], [0xC1] and [0xF5..0xFF]. *)
Definition never_in_utf8 (b : N) : bool :=
  ((b =? 0xC0) || (b =? 0xC1) || (0xF5 <=? b))%N.

(** A run in which the client cannot be initialised. *)
Definition invalid_key : Exception :=
  mkException (Py.lit "ValueError") (Py.lit "Invalid API key").

Definition init_failure_world : world :=
  {| GOOGLE_API_KEY := Some (Py.lit "AIza-test-key");
     init_exception := Some invalid_key;
     uploaded_file := Some latin1_upload;
     text_area := fun _ => sample_lab_text;
     button := true;
     gemini := fun _ _ => inl sample_reply;
     random := fun _ => 1 # 2;
     future_id := fun _ => 0x7f3a5c0b1d90%N |}.

(** A run in which the button is not clicked. *)
Definition idle_world : world :=
  {| GOOGLE_API_KEY := Some (Py.lit "AIza-test-key");
     init_exception := None;
     uploaded_file := None;
     text_area := fun _ => sample_lab_text;
     button := false;
     gemini := fun _ _ => inl sample_reply;
     random := fun _ => 1 # 2;
     future_id := fun _ => 0x7f3a5c0b1d90%N |}.

(** A run with an uploaded file and the text area left as pre-filled. *)
Definition untouched_world (upload : Py.bytes) : world :=
  {| GOOGLE_API_KEY := Some (Py.lit "AIza-test-key");
     init_exception := None;
     uploaded_file := Some upload;
     text_area := fun value => value;
     button := true;
     gemini := fun _ _ => inl sample_reply;
     random := fun _ => 1 # 2;
     future_id := fun _ => 0x7f3a5c0b1d90%N |}.

(** An exception whose class name tells of a rate limit. *)
Definition rate_limited : Exception :=
  mkException (Py.lit "RateLimitError") (Py.lit "slow down").

(** A run like [sample_world] in which every attempt raises [e]. *)
Definition failing_world (e : Exception) : world :=
  {| GOOGLE_API_KEY := Some (Py.lit "AIza-test-key");
     init_exception := None;
     uploaded_file := None;
     text_area := fun _ => sample_lab_text;
     button := true;
     gemini := fun _ _ => inr e;
     random := fun _ => 1 # 2;
     future_id := fun _ => 0x7f3a5c0b1d90%N |}.

(* ===================================================================== *)
(** ** Sanity checks of the embedding *)
(* ===================================================================== *)

Example strip_example :
  Py.strip (Py.lit "  a b  ") = Py.lit "a b".
Proof. reflexivity. Qed.

Example decode_example :
  Py.decode_utf8 [Byte.xe2; Byte.x80; Byte.x99; Byte.x41] = Some [0x2019%N; 0x41%N].
Proof. reflexivity. Qed.

Example decode_bad :
  Py.decode_utf8 [Byte.xff] = None /\ Py.decode_utf8 [Byte.xc0; Byte.x80] = None
  /\ Py.decode_utf8 [Byte.xed; Byte.xa0; Byte.x80] = None.
Proof. repeat split; reflexivity. Qed.

Example hex_example : Py.hex 0x7f3a = Py.lit "0x7f3a".
Proof. reflexivity. Qed.

Example contains_example :
  Py.contains (Py.lit "rate") (Py.lower Py.keep_non_ascii (Py.lit "Error: RATE exceeded")) = true.
Proof. reflexivity. Qed.

Example safe_generate_fourth_attempt :
  snd (safe_generate (sample_world 3 (Py.lit " ok ")) []) = inl (Py.lit "ok").
Proof. reflexivity. Qed.

(* ===================================================================== *)
(** ** The retry loop *)
(* ===================================================================== *)

Lemma call_unfold (A : Type) (max : nat) (wait : nat -> Q)
    (fn : nat -> list action * (A + Exception)) (fid : nat -> N) (n : nat) :
  Tenacity.call max wait fn fid n =
  match fn n with
  | (tr, inl result) => (tr, inl result)
  | (tr, inr e) =>
      if Tenacity.stop_after_attempt max n
      then (tr, inr (Tenacity.mkRetryError (Tenacity.mkFuture (fid n) n e)))
      else let r := Tenacity.call max wait fn fid (S n) in
           (tr ++ time_sleep (wait n) :: fst r, snd r)
  end.
Proof.
  funelim (Tenacity.call max wait fn fid n); rewrite Heq; simpl.
  - reflexivity.
  - match goal with E : Tenacity.stop_after_attempt _ _ = _ |- _ => rewrite E end.
    reflexivity.
  - match goal with E : Tenacity.stop_after_attempt _ _ = _ |- _ => rewrite E end.
    reflexivity.
Qed.

(** [safe_generate] unrolled: at most four attempts, a sleep before each
    retry. *)
Lemma safe_generate_unfold (w : world) (prompt : Py.str) :
  let g := generate_content prompt (25 # 100) 512 in
  let d n := time_sleep (Tenacity.wait_random_exponential 12 60 (random w n) n) in
  safe_generate w prompt =
  match gemini w 1 prompt with
  | inl t => ([g], inl (Py.strip t))
  | inr _ =>
    match gemini w 2 prompt with
    | inl t => ([g; d 1%nat; g], inl (Py.strip t))
    | inr _ =>
      match gemini w 3 prompt with
      | inl t => ([g; d 1%nat; g; d 2%nat; g], inl (Py.strip t))
      | inr _ =>
        match gemini w 4 prompt with
        | inl t => ([g; d 1%nat; g; d 2%nat; g; d 3%nat; g], inl (Py.strip t))
        | inr e =>
            ([g; d 1%nat; g; d 2%nat; g; d 3%nat; g],
             inr (Tenacity.mkRetryError
                    (Tenacity.mkFuture (future_id w 4) 4 e)))
        end
      end
    end
  end.
Proof.
  intros g d. unfold safe_generate.
  set (fn := safe_generate_body w prompt).
  assert (Hfn : forall n, fn n =
            ([g], match gemini w n prompt with
                  | inl text => inl (Py.strip text)
                  | inr e => inr e
                  end)) by reflexivity.
  rewrite call_unfold, Hfn.
  destruct (gemini w 1 prompt) as [t1 | e1]; [reflexivity|]. simpl.
  rewrite call_unfold, Hfn.
  destruct (gemini w 2 prompt) as [t2 | e2]; [reflexivity|]. simpl.
  rewrite call_unfold, Hfn.
  destruct (gemini w 3 prompt) as [t3 | e3]; [reflexivity|]. simpl.
  rewrite call_unfold, Hfn.
  destruct (gemini w 4 prompt) as [t4 | e4]; reflexivity.
Qed.


(* ===================================================================== *)
(** ** [str.strip()] *)
(* ===================================================================== *)

Lemma lstrip_no_leading_space (s : Py.str) :
  leading_space (Py.lstrip s) = false.
Proof.
  induction s as [| c r IH]; simpl; [reflexivity|].
  destruct (Py.isspace c) eqn:E; [exact IH|].
  simpl. exact E.
Qed.

Lemma lstrip_nil_iff (s : Py.str) :
  Py.lstrip s = [] <-> forallb Py.isspace s = true.
Proof.
  induction s as [| c r IH]; simpl.
  - split; reflexivity.
  - destruct (Py.isspace c); simpl.
    + exact IH.
    + split; discriminate.
Qed.

Lemma forallb_lstrip (s : Py.str) :
  forallb Py.isspace (Py.lstrip s) = forallb Py.isspace s.
Proof.
  induction s as [| c r IH]; simpl; [reflexivity|].
  destruct (Py.isspace c) eqn:E; simpl.
  - exact IH.
  - rewrite E. reflexivity.
Qed.

Lemma forallb_rev (f : N -> bool) (s : list N) :
  forallb f (rev s) = forallb f s.
Proof.
  induction s as [| c r IH]; simpl; [reflexivity|].
  rewrite forallb_app, IH. simpl. rewrite andb_true_r. apply andb_comm.
Qed.

Lemma strip_nil_iff (s : Py.str) :
  Py.strip s = [] <-> forallb Py.isspace s = true.
Proof.
  unfold Py.strip, Py.rstrip.
  rewrite <- (forallb_lstrip s), <- (forallb_rev Py.isspace (Py.lstrip s)).
  rewrite <- lstrip_nil_iff.
  split; intros H.
  - apply (f_equal (@rev N)) in H. rewrite rev_involutive in H. exact H.
  - rewrite H. reflexivity.
Qed.

(** [strip] keeps a string exactly when it holds a character that is not
    white space. *)
Lemma strip_truthy_iff (s : Py.str) :
  Py.truthy (Py.strip s) = true <-> exists c, In c s /\ Py.isspace c = false.
Proof.
  split.
  - intros H.
    destruct (forallb Py.isspace s) eqn:E.
    + apply strip_nil_iff in E. rewrite E in H. discriminate.
    + assert (X : existsb (fun c => negb (Py.isspace c)) s = true).
      { clear H. induction s as [| c r IH]; simpl in *; [discriminate|].
        destruct (Py.isspace c); simpl in *; auto. }
      apply existsb_exists in X. destruct X as [c [Hin Hc]].
      exists c. split; [exact Hin|]. now apply negb_true_iff in Hc.
  - intros [c [Hin Hc]].
    destruct (Py.strip s) eqn:E; [|reflexivity].
    apply strip_nil_iff in E. rewrite forallb_forall in E.
    rewrite (E c Hin) in Hc. discriminate.
Qed.

Lemma lstrip_keeps_last (x : Py.str) (c : N) :
  Py.isspace c = false -> exists q, Py.lstrip (x ++ [c]) = q ++ [c].
Proof.
  intros Hc. induction x as [| a r IH]; simpl.
  - rewrite Hc. exists []. reflexivity.
  - destruct (Py.isspace a).
    + exact IH.
    + exists (a :: r). reflexivity.
Qed.

Lemma strip_no_trailing_space (s : Py.str) :
  trailing_space (Py.strip s) = false.
Proof.
  unfold trailing_space, Py.strip, Py.rstrip.
  rewrite rev_involutive. apply lstrip_no_leading_space.
Qed.

Lemma strip_no_leading_space (s : Py.str) :
  leading_space (Py.strip s) = false.
Proof.
  unfold Py.strip, Py.rstrip.
  pose proof (lstrip_no_leading_space s) as H.
  destruct (Py.lstrip s) as [| c r]; [reflexivity|].
  simpl in H. simpl rev.
  destruct (@lstrip_keeps_last (rev r) c H) as [q Hq].
  rewrite Hq, rev_unit. simpl. exact H.
Qed.

Lemma strip_changes_padded_text (s : Py.str) :
  leading_space s || trailing_space s = true -> Py.strip s <> s.
Proof.
  intros H E.
  pose proof (strip_no_leading_space s) as Hl.
  pose proof (strip_no_trailing_space s) as Ht.
  rewrite E in Hl, Ht. rewrite Hl, Ht in H. discriminate.
Qed.

(* ===================================================================== *)
(** ** The generation client *)
(* ===================================================================== *)

(** Uses a hypothesis "every attempt of a range raises" at one attempt. *)
Ltac raises_at H j :=
  let e := fresh "e" in
  let E := fresh "E" in
  destruct (H j) as [e E]; [lia | rewrite E in *].

(** Four attempts that raise: [safe_generate] raises the [RetryError] of
    the fourth, after four calls. *)
Lemma safe_generate_after_four_failures (w : world) (prompt : Py.str)
    (e4 : Exception) :
  (forall j, (1 <= j < 4)%nat -> exists e, gemini w j prompt = inr e) ->
  gemini w 4 prompt = inr e4 ->
  snd (safe_generate w prompt)
  = inr (Tenacity.mkRetryError (Tenacity.mkFuture (future_id w 4) 4 e4))
  /\ calls (fst (safe_generate w prompt)) = repeat prompt 4.
Proof.
  intros H H4. rewrite safe_generate_unfold. cbv zeta.
  raises_at H 1%nat. raises_at H 2%nat. raises_at H 3%nat.
  rewrite H4. split; reflexivity.
Qed.

(** C1. Whatever the exceptions are, an attempt of [safe_generate] that
    raises is followed by another attempt as long as fewer than four were
    made; the first attempt that answers, the fourth included, gives the
    result of [safe_generate]; after four failures [safe_generate] raises,
    and no run makes more than four attempts. *)
Theorem safe_generate_retries_up_to_four_attempts :
  forall (w : world) (prompt : Py.str),
    (forall k : nat,
        (1 <= k < 4)%nat ->
        (forall j, (1 <= j <= k)%nat -> exists e, gemini w j prompt = inr e) ->
        (k < List.length (calls (fst (safe_generate w prompt))))%nat)
    /\ (forall (k : nat) (text : Py.str),
        (1 <= k <= 4)%nat ->
        (forall j, (1 <= j < k)%nat -> exists e, gemini w j prompt = inr e) ->
        gemini w k prompt = inl text ->
        snd (safe_generate w prompt) = inl (Py.strip text)
        /\ calls (fst (safe_generate w prompt)) = repeat prompt k)
    /\ (forall e4 : Exception,
        (forall j, (1 <= j < 4)%nat -> exists e, gemini w j prompt = inr e) ->
        gemini w 4 prompt = inr e4 ->
        snd (safe_generate w prompt)
        = inr (Tenacity.mkRetryError (Tenacity.mkFuture (future_id w 4) 4 e4))
        /\ calls (fst (safe_generate w prompt)) = repeat prompt 4)
    /\ (List.length (calls (fst (safe_generate w prompt))) <= 4)%nat.
Proof.
  intros w prompt. rewrite safe_generate_unfold. cbv zeta.
  repeat split.
  - intros k Hk H.
    assert (K : k = 1%nat \/ k = 2%nat \/ k = 3%nat) by lia.
    destruct K as [-> | [-> | ->]].
    + raises_at H 1%nat.
      destruct (gemini w 2 prompt); [simpl; lia|].
      destruct (gemini w 3 prompt); [simpl; lia|].
      destruct (gemini w 4 prompt); simpl; lia.
    + raises_at H 1%nat. raises_at H 2%nat.
      destruct (gemini w 3 prompt); [simpl; lia|].
      destruct (gemini w 4 prompt); simpl; lia.
    + raises_at H 1%nat. raises_at H 2%nat. raises_at H 3%nat.
      destruct (gemini w 4 prompt); simpl; lia.
  - assert (K : k = 1%nat \/ k = 2%nat \/ k = 3%nat \/ k = 4%nat) by lia.
    destruct K as [-> | [-> | [-> | ->]]].
    + rewrite H1. reflexivity.
    + raises_at H0 1%nat. rewrite H1. reflexivity.
    + raises_at H0 1%nat. raises_at H0 2%nat. rewrite H1. reflexivity.
    + raises_at H0 1%nat. raises_at H0 2%nat. raises_at H0 3%nat.
      rewrite H1. reflexivity.
  - assert (K : k = 1%nat \/ k = 2%nat \/ k = 3%nat \/ k = 4%nat) by lia.
    destruct K as [-> | [-> | [-> | ->]]].
    + rewrite H1. reflexivity.
    + raises_at H0 1%nat. rewrite H1. reflexivity.
    + raises_at H0 1%nat. raises_at H0 2%nat. rewrite H1. reflexivity.
    + raises_at H0 1%nat. raises_at H0 2%nat. raises_at H0 3%nat.
      rewrite H1. reflexivity.
  - rewrite <- safe_generate_unfold.
    apply (safe_generate_after_four_failures w prompt H H0).
  - rewrite <- safe_generate_unfold.
    apply (safe_generate_after_four_failures w prompt H H0).
  - destruct (gemini w 1 prompt); [simpl; lia|].
    destruct (gemini w 2 prompt); [simpl; lia|].
    destruct (gemini w 3 prompt); [simpl; lia|].
    destruct (gemini w 4 prompt); simpl; lia.
Qed.

(** Three failures and an answer at the fourth attempt: the answer is
    returned. *)
Lemma safe_generate_retries_up_to_four_attempts_witness :
  snd (safe_generate (sample_world 3 sample_reply) (full_prompt sample_lab_text))
  = inl (Py.strip sample_reply)
  /\ calls (fst (safe_generate (sample_world 3 sample_reply)
                               (full_prompt sample_lab_text)))
     = repeat (full_prompt sample_lab_text) 4.
Proof.
  apply (proj1 (proj2 (safe_generate_retries_up_to_four_attempts
                         (sample_world 3 sample_reply)
                         (full_prompt sample_lab_text)))
               4%nat sample_reply).
  - lia.
  - intros j Hj. exists quota_exceeded.
    destruct j as [| [| [| [| j]]]]; try lia; reflexivity.
  - reflexivity.
Defined.

(** The exponential wait with [min=12], [max=60] stays between them. *)
Lemma wait_exponential_bounds (n : nat) :
  12 <= Tenacity.wait_exponential 1 2 12 60 n <= 60.
Proof.
  unfold Tenacity.wait_exponential. split.
  - eapply Qle_trans; [|apply Q.le_max_l]. apply Q.le_max_r.
  - apply Q.max_lub.
    + apply Q.max_lub; unfold Qle; simpl; lia.
    + apply Q.le_min_r.
Qed.

(** For the first three attempts the exponential wait is the minimum. *)
Lemma wait_exponential_first_three (n : nat) :
  (1 <= n <= 3)%nat -> Tenacity.wait_exponential 1 2 12 60 n == 12.
Proof.
  intros H.
  assert (K : n = 1%nat \/ n = 2%nat \/ n = 3%nat) by lia.
  destruct K as [-> | [-> | ->]]; reflexivity.
Qed.

Lemma wait_random_exponential_bounds (u : Q) (n : nat) :
  0 <= u <= 1 ->
  12 <= Tenacity.wait_random_exponential 12 60 u n <= 60.
Proof.
  intros [Hu0 Hu1].
  unfold Tenacity.wait_random_exponential, Tenacity.uniform.
  destruct (wait_exponential_bounds n) as [Hl Hh].
  set (high := Tenacity.wait_exponential 1 2 12 60 n) in *.
  split; nra.
Qed.

(** With [min=12] the first three waits leave no room for the draw: each
    of them is 12, whatever [random()] gives. *)
Lemma wait_random_exponential_first_three (u : Q) (n : nat) :
  (1 <= n <= 3)%nat -> Tenacity.wait_random_exponential 12 60 u n == 12.
Proof.
  intros H. unfold Tenacity.wait_random_exponential, Tenacity.uniform.
  rewrite (wait_exponential_first_three H). ring.
Qed.

(** The sleeps of [safe_generate] are the waits of the strategy, one after
    each attempt but the last. *)
Lemma safe_generate_sleeps (w : world) (prompt : Py.str) :
  sleeps (fst (safe_generate w prompt))
  = map (fun n => Tenacity.wait_random_exponential 12 60 (random w n) n)
        (seq 1 (List.length (calls (fst (safe_generate w prompt))) - 1)).
Proof.
  rewrite safe_generate_unfold. cbv zeta.
  destruct (gemini w 1 prompt); [reflexivity|].
  destruct (gemini w 2 prompt); [reflexivity|].
  destruct (gemini w 3 prompt); [reflexivity|].
  destruct (gemini w 4 prompt); reflexivity.
Qed.

Lemma safe_generate_at_most_four_calls (w : world) (prompt : Py.str) :
  (1 <= List.length (calls (fst (safe_generate w prompt))) <= 4)%nat.
Proof.
  rewrite safe_generate_unfold. cbv zeta.
  destruct (gemini w 1 prompt); [simpl; lia|].
  destruct (gemini w 2 prompt); [simpl; lia|].
  destruct (gemini w 3 prompt); [simpl; lia|].
  destruct (gemini w 4 prompt); simpl; lia.
Qed.

(** In [safe_generate] every sleep is the minimum wait. *)
Lemma safe_generate_sleeps_twelve (w : world) (prompt : Py.str) :
  Forall (fun d : Q => d == 12) (sleeps (fst (safe_generate w prompt))).
Proof.
  rewrite safe_generate_sleeps. apply Forall_forall. intros d Hd.
  apply in_map_iff in Hd. destruct Hd as [n [<- Hn]].
  apply in_seq in Hn.
  pose proof (safe_generate_at_most_four_calls w prompt).
  apply wait_random_exponential_first_three. lia.
Qed.

(** The strategy spelled out: the delay is drawn between the minimum 12
    and a window that is the power of two of the attempt, kept between 12
    and 60. *)
Lemma wait_random_exponential_formula (u : Q) (n : nat) :
  Tenacity.wait_random_exponential 12 60 u n
  == 12 + (Qmax 12 (Qmin (inject_Z (2 ^ (Z.of_nat n - 1))) 60) - 12) * u.
Proof.
  unfold Tenacity.wait_random_exponential, Tenacity.uniform,
    Tenacity.wait_exponential.
  assert (M : Qmax 0 12 == 12) by (apply Q.max_r; unfold Qle; simpl; lia).
  rewrite M, Qmult_1_l. reflexivity.
Qed.

(** The window of the draw grows with the attempts: 12 up to the fourth,
    then 16, 32, and 60 from the seventh on. *)
Lemma wait_window_values (n : nat) :
  (1 <= n)%nat ->
  Qmax 12 (Qmin (inject_Z (2 ^ (Z.of_nat n - 1))) 60)
  == if (n <=? 4)%nat then 12
     else if (n =? 5)%nat then 16
     else if (n =? 6)%nat then 32
     else 60.
Proof.
  intros H.
  destruct (Nat.leb_spec n 4) as [L | L].
  { assert (K : (n = 1 \/ n = 2 \/ n = 3 \/ n = 4)%nat) by lia.
    destruct K as [-> | [-> | [-> | ->]]]; reflexivity. }
  destruct (Nat.eqb_spec n 5) as [-> | N5]; [reflexivity|].
  destruct (Nat.eqb_spec n 6) as [-> | N6]; [reflexivity|].
  assert (P : (2 ^ 6 <= 2 ^ (Z.of_nat n - 1))%Z)
    by (apply Z.pow_le_mono_r; lia).
  assert (Q60 : 60 <= inject_Z (2 ^ (Z.of_nat n - 1))).
  { apply Qle_trans with (inject_Z (2 ^ 6)).
    - unfold Qle. simpl. lia.
    - rewrite <- Zle_Qle. exact P. }
  rewrite (Q.min_r _ _ Q60). apply Q.max_r. unfold Qle. simpl. lia.
Qed.

(** Pairs each attempt number with the sleep that follows the attempt. *)
Lemma Forall2_seq_map (f : nat -> Q) (P : nat -> Q -> Prop) (l : list nat) :
  (forall n, In n l -> P n (f n)) -> Forall2 P l (map f l).
Proof.
  induction l as [| n l IH]; intros H; simpl; constructor.
  - apply H. left. reflexivity.
  - apply IH. intros k Hk. apply H. right. exact Hk.
Qed.

(** C7. The wait strategy of [safe_generate] is a randomized exponential
    back-off: at attempt [n] with draw [u] the delay is
    [12 + (max 12 (min (2 ^ (n - 1)) 60) - 12) * u], a point between the
    minimum 12 and a window that doubles with the attempts and is kept
    between 12 and 60.  With [random()] in the unit interval every such
    delay is between 12 and 60.  The sleeps of a run are these delays, one
    between each two consecutive attempts, so each sleep is between 12 and
    60. *)
Theorem retry_waits_between_12_and_60 :
  forall (w : world) (prompt : Py.str),
    (forall n : nat, 0 <= random w n <= 1) ->
    (forall (n : nat) (u : Q),
        Tenacity.wait_random_exponential 12 60 u n
        == 12 + (Qmax 12 (Qmin (inject_Z (2 ^ (Z.of_nat n - 1))) 60) - 12) * u)
    /\ (forall n : nat,
        12 <= Tenacity.wait_random_exponential 12 60 (random w n) n <= 60)
    /\ sleeps (fst (safe_generate w prompt))
       = map (fun n => Tenacity.wait_random_exponential 12 60 (random w n) n)
             (seq 1 (List.length (calls (fst (safe_generate w prompt))) - 1))
    /\ Forall2
         (fun (n : nat) (d : Q) =>
            d == 12 + (Qmax 12 (Qmin (inject_Z (2 ^ (Z.of_nat n - 1))) 60) - 12)
                      * random w n)
         (seq 1 (List.length (calls (fst (safe_generate w prompt))) - 1))
         (sleeps (fst (safe_generate w prompt)))
    /\ Forall (fun d : Q => 12 <= d <= 60)
              (sleeps (fst (safe_generate w prompt))).
Proof.
  intros w prompt Hu.
  assert (B : forall n : nat,
             12 <= Tenacity.wait_random_exponential 12 60 (random w n) n <= 60).
  { intros n. apply wait_random_exponential_bounds. apply Hu. }
  pose proof (safe_generate_sleeps w prompt) as S.
  split; [intros n u; apply wait_random_exponential_formula|].
  split; [exact B|]. split; [exact S|]. split.
  - rewrite S. apply Forall2_seq_map. intros n _.
    apply wait_random_exponential_formula.
  - rewrite S. apply Forall_forall. intros d Hd.
    apply in_map_iff in Hd. destruct Hd as [n [<- _]]. apply B.
Qed.

Lemma retry_waits_between_12_and_60_witness :
  Forall (fun d : Q => 12 <= d <= 60)
         (sleeps (fst (safe_generate (sample_world 3 sample_reply)
                                     (full_prompt sample_lab_text)))).
Proof.
  apply (proj2 (proj2 (proj2 (proj2 (retry_waits_between_12_and_60
                         (sample_world 3 sample_reply)
                         (full_prompt sample_lab_text)
                         (fun n => conj (Qle_bool_imp_le 0 (1 # 2) eq_refl)
                                        (Qle_bool_imp_le (1 # 2) 1 eq_refl))))))).
Defined.

(** The only actions of [safe_generate] are generation calls and sleeps. *)
Lemma safe_generate_writes_nothing (w : world) (prompt : Py.str) :
  written (fst (safe_generate w prompt)) = [].
Proof.
  rewrite safe_generate_unfold. cbv zeta.
  destruct (gemini w 1 prompt); [reflexivity|].
  destruct (gemini w 2 prompt); [reflexivity|].
  destruct (gemini w 3 prompt); [reflexivity|].
  destruct (gemini w 4 prompt); reflexivity.
Qed.

(** A result of [safe_generate] is the stripped text of an attempt. *)
Lemma safe_generate_result (w : world) (prompt answer : Py.str) :
  snd (safe_generate w prompt) = inl answer ->
  exists (k : nat) (text : Py.str),
    (1 <= k <= 4)%nat /\ gemini w k prompt = inl text /\ answer = Py.strip text.
Proof.
  rewrite safe_generate_unfold. cbv zeta.
  destruct (gemini w 1 prompt) as [t1 |] eqn:E1.
  { intros [= <-]. exists 1%nat, t1. repeat split; auto; lia. }
  destruct (gemini w 2 prompt) as [t2 |] eqn:E2.
  { intros [= <-]. exists 2%nat, t2. repeat split; auto; lia. }
  destruct (gemini w 3 prompt) as [t3 |] eqn:E3.
  { intros [= <-]. exists 3%nat, t3. repeat split; auto; lia. }
  destruct (gemini w 4 prompt) as [t4 |] eqn:E4.
  { intros [= <-]. exists 4%nat, t4. repeat split; auto; lia. }
  discriminate.
Qed.

Lemma written_app (a b : list action) :
  written (a ++ b) = written a ++ written b.
Proof.
  induction a as [| x a IH]; simpl; [reflexivity|].
  destruct x; simpl; rewrite ?IH; reflexivity.
Qed.

Lemma calls_app (a b : list action) :
  calls (a ++ b) = calls a ++ calls b.
Proof.
  induction a as [| x a IH]; simpl; [reflexivity|].
  destruct x; simpl; rewrite ?IH; reflexivity.
Qed.

(* ===================================================================== *)
(** ** The script, step by step *)
(* ===================================================================== *)

(** The click handler without the monad. *)
Lemma on_click_unfold (ul : Py.str -> nat -> N -> list N) (w : world)
    (final : Py.str) :
  on_click ul w final =
  if Py.truthy (Py.strip final)
  then match safe_generate w (full_prompt final) with
       | (tr, inl answer) =>
           (tr ++ [st_success success_message; st_write answer], Continue tt)
       | (tr, inr e) =>
           (tr ++ [st_error (failure_message ul (Tenacity.RetryError_str e))],
            Continue tt)
       end
  else ([st_warning empty_message; st_stop], Stopped).
Proof.
  unfold on_click.
  destruct (Py.truthy (Py.strip final)); simpl; [|reflexivity].
  destruct (safe_generate w (full_prompt final)) as [tr [answer | e]];
    reflexivity.
Qed.

(** The upload handling never stops the script: it yields the decoded
    text, or warns and yields the empty string. *)
Lemma read_upload_unfold (w : world) :
  read_upload w =
  match uploaded_file w with
  | None => ([], Continue [])
  | Some bytes_content =>
      match Py.decode_utf8 bytes_content with
      | Some file_text => ([], Continue file_text)
      | None => ([st_warning unreadable_message], Continue [])
      end
  end.
Proof.
  unfold read_upload.
  destruct (uploaded_file w) as [b |]; [|reflexivity].
  destruct (Py.decode_utf8 b); reflexivity.
Qed.

Lemma read_upload_value (w : world) :
  snd (read_upload w) = Continue (file_text_of w).
Proof.
  rewrite read_upload_unfold. unfold file_text_of.
  destruct (uploaded_file w) as [b |]; [|reflexivity].
  destruct (Py.decode_utf8 b); reflexivity.
Qed.

Lemma collect_unfold (w : world) :
  collect w = (fst (read_upload w), Continue (resolved w (file_text_of w))).
Proof.
  unfold collect. pose proof (read_upload_value w) as V.
  destruct (read_upload w) as [up c]. simpl in V. subst c.
  unfold bind. simpl. rewrite app_nil_r. reflexivity.
Qed.

(** The whole script without the monad. *)
Lemma app_unfold (ul : Py.str -> nat -> N -> list N) (w : world) :
  app ul w =
  match GOOGLE_API_KEY w with
  | None => ([st_error key_missing_message; st_stop], Stopped)
  | Some google_key =>
      if Py.truthy google_key
      then match init_exception w with
           | Some e =>
               ([genai_configure google_key;
                 st_error (init_failed_message e); st_stop], Stopped)
           | None =>
               if button w
               then (genai_configure google_key
                       :: fst (read_upload w)
                       ++ fst (on_click ul w (resolved w (file_text_of w))),
                     snd (on_click ul w (resolved w (file_text_of w))))
               else (genai_configure google_key :: fst (read_upload w) ++ [],
                     Continue tt)
           end
      else ([st_error key_missing_message; st_stop], Stopped)
  end.
Proof.
  unfold app, load_key, configure.
  destruct (GOOGLE_API_KEY w) as [key |]; [|reflexivity].
  destruct (Py.truthy key); [|reflexivity].
  destruct (init_exception w); [reflexivity|].
  rewrite collect_unfold.
  destruct (button w); reflexivity.
Qed.

(** The upload handling calls nothing and displays no answer. *)
Lemma read_upload_quiet (w : world) :
  calls (fst (read_upload w)) = [] /\ written (fst (read_upload w)) = [].
Proof.
  rewrite read_upload_unfold.
  destruct (uploaded_file w) as [b |]; [|split; reflexivity].
  destruct (Py.decode_utf8 b); split; reflexivity.
Qed.

(** What [app] displays with [st.write] is a result of [safe_generate] on
    the prompt of the resolved text. *)
Lemma app_written (ul : Py.str -> nat -> N -> list N) (w : world) (a : Py.str) :
  In a (written (trace (app ul w))) ->
  snd (safe_generate w (full_prompt (resolved w (file_text_of w)))) = inl a.
Proof.
  unfold trace. rewrite app_unfold.
  destruct (GOOGLE_API_KEY w) as [key |]; [|simpl; tauto].
  destruct (Py.truthy key); [|simpl; tauto].
  destruct (init_exception w); [simpl; tauto|].
  destruct (read_upload_quiet w) as [_ W].
  destruct (button w); simpl; rewrite written_app, W; simpl; [|tauto].
  rewrite on_click_unfold.
  destruct (Py.truthy (Py.strip _)); [|simpl; tauto].
  pose proof (safe_generate_writes_nothing w
                (full_prompt (resolved w (file_text_of w)))) as G.
  destruct (safe_generate w _) as [tr [answer | e]];
    simpl in *; rewrite written_app, G; simpl.
  - intros [<- | []]. reflexivity.
  - tauto.
Qed.

(** C9. A result of [safe_generate] is the text of an attempt's response
    with [strip()] applied: it neither starts nor ends with white space,
    and it differs from the response whenever that one started or ended
    with white space.  The explanation [app] displays is such a result. *)
Theorem safe_generate_returns_stripped_text :
  forall (ul : Py.str -> nat -> N -> list N) (w : world),
    (forall (prompt answer : Py.str),
        snd (safe_generate w prompt) = inl answer ->
        leading_space answer = false
        /\ trailing_space answer = false
        /\ exists (k : nat) (text : Py.str),
             (1 <= k <= 4)%nat
             /\ gemini w k prompt = inl text
             /\ answer = Py.strip text
             /\ (leading_space text || trailing_space text = true ->
                 answer <> text))
    /\ (forall answer : Py.str,
        In answer (written (trace (app ul w))) ->
        leading_space answer = false
        /\ trailing_space answer = false
        /\ exists (k : nat) (text : Py.str),
             (1 <= k <= 4)%nat
             /\ gemini w k (full_prompt (resolved w (file_text_of w))) = inl text
             /\ answer = Py.strip text
             /\ (leading_space text || trailing_space text = true ->
                 answer <> text)).
Proof.
  intros ul w.
  assert (R : forall prompt answer : Py.str,
        snd (safe_generate w prompt) = inl answer ->
        leading_space answer = false
        /\ trailing_space answer = false
        /\ exists (k : nat) (text : Py.str),
             (1 <= k <= 4)%nat
             /\ gemini w k prompt = inl text
             /\ answer = Py.strip text
             /\ (leading_space text || trailing_space text = true ->
                 answer <> text)).
  { intros prompt answer H.
    destruct (safe_generate_result w prompt H) as [k [text [Hk [Hg ->]]]].
    split; [apply strip_no_leading_space|].
    split; [apply strip_no_trailing_space|].
    exists k, text. repeat split; try tauto.
    apply strip_changes_padded_text. }
  split; [exact R|].
  intros answer H. apply R. apply (app_written ul). exact H.
Qed.

(** A padded reply is displayed without its padding. *)
Lemma safe_generate_returns_stripped_text_witness :
  leading_space (Py.lit "Your A1C is elevated...") = false
  /\ trailing_space (Py.lit "Your A1C is elevated...") = false
  /\ exists (k : nat) (text : Py.str),
       (1 <= k <= 4)%nat
       /\ gemini (sample_world 0 ([Py.LF] ++ sample_reply ++ Py.lit "  ")) k
                 (full_prompt sample_lab_text) = inl text
       /\ Py.lit "Your A1C is elevated..." = Py.strip text
       /\ (leading_space text || trailing_space text = true ->
           Py.lit "Your A1C is elevated..." <> text).
Proof.
  apply (proj2 (safe_generate_returns_stripped_text Py.keep_non_ascii
                  (sample_world 0 ([Py.LF] ++ sample_reply ++ Py.lit "  ")))).
  vm_compute. left. reflexivity.
Defined.

(* ===================================================================== *)
(** ** Start-up *)
(* ===================================================================== *)

(** C8. Without the API key (unset, or set to the empty string) the script
    shows the error, stops, and has neither configured the client nor
    called the model. *)
Theorem missing_key_halts_before_configuration :
  forall (ul : Py.str -> nat -> N -> list N) (w : world),
    GOOGLE_API_KEY w = None \/ GOOGLE_API_KEY w = Some [] ->
    app ul w = ([st_error key_missing_message; st_stop], Stopped)
    /\ existsb is_configure (trace (app ul w)) = false
    /\ calls (trace (app ul w)) = [].
Proof.
  intros ul w H.
  assert (E : app ul w = ([st_error key_missing_message; st_stop], Stopped)).
  { rewrite app_unfold. destruct H as [-> | ->]; reflexivity. }
  rewrite E. repeat split.
Qed.

Lemma missing_key_halts_before_configuration_witness :
  app Py.keep_non_ascii keyless_world
  = ([st_error key_missing_message; st_stop], Stopped)
  /\ existsb is_configure (trace (app Py.keep_non_ascii keyless_world)) = false
  /\ calls (trace (app Py.keep_non_ascii keyless_world)) = [].
Proof.
  apply (missing_key_halts_before_configuration Py.keep_non_ascii keyless_world).
  left. reflexivity.
Defined.

(* ===================================================================== *)
(** ** The input collector *)
(* ===================================================================== *)

(** C3, as the code has it.  The uploaded text is sent whenever it holds a
    character that is not white space, whatever was typed; the text of the
    text area is sent when the upload is absent, empty or white space only.
    Without an upload the script resolves the text of the text area. *)
Theorem final_text_prefers_non_blank_upload :
  forall (file_text lab_text_input : Py.str),
    ((exists c, In c file_text /\ Py.isspace c = false) ->
     final_text file_text lab_text_input = file_text)
    /\ ((forall c, In c file_text -> Py.isspace c = true) ->
        final_text file_text lab_text_input = lab_text_input)
    /\ final_text [] lab_text_input = lab_text_input
    /\ (forall w : world,
        uploaded_file w = None ->
        collect w = ([], Continue (text_area w []))).
Proof.
  intros file_text lab_text_input. unfold final_text. repeat split.
  - intros H. apply strip_truthy_iff in H. rewrite H. reflexivity.
  - intros H. apply forallb_forall in H. apply strip_nil_iff in H.
    rewrite H. reflexivity.
  - intros w H. rewrite collect_unfold, read_upload_unfold.
    unfold resolved, file_text_of. rewrite H. reflexivity.
Qed.

Lemma final_text_prefers_non_blank_upload_witness :
  final_text (Py.lit "LDL Cholesterol: 165 mg/dL (High)") sample_lab_text
  = Py.lit "LDL Cholesterol: 165 mg/dL (High)".
Proof.
  apply (proj1 (final_text_prefers_non_blank_upload
                  (Py.lit "LDL Cholesterol: 165 mg/dL (High)") sample_lab_text)).
  exists 76%N. split; [left; reflexivity | reflexivity].
Defined.

(** C3 as stated fails: an upload holding one space is not empty, and the
    typed text is resolved instead of it. *)
Lemma non_empty_blank_upload_is_not_resolved :
  [32%N] <> []
  /\ final_text [32%N] sample_lab_text = sample_lab_text
  /\ final_text [32%N] sample_lab_text <> [32%N].
Proof.
  repeat split; [discriminate | discriminate].
Qed.

(** C10. An upload that is not empty but holds white space only is passed
    over: the text of the text area is resolved, also in the script. *)
Theorem whitespace_only_upload_is_ignored :
  forall (file_text lab_text_input : Py.str),
    file_text <> [] ->
    forallb Py.isspace file_text = true ->
    final_text file_text lab_text_input = lab_text_input
    /\ (forall (w : world) (bytes_content : Py.bytes),
        uploaded_file w = Some bytes_content ->
        Py.decode_utf8 bytes_content = Some file_text ->
        collect w = ([], Continue (text_area w file_text))).
Proof.
  intros file_text lab_text_input _ H.
  assert (E : forall typed, final_text file_text typed = typed).
  { intros typed. unfold final_text.
    apply strip_nil_iff in H. rewrite H. reflexivity. }
  split; [apply E|].
  intros w b Hu Hd. rewrite collect_unfold, read_upload_unfold.
  unfold resolved, file_text_of. rewrite Hu, Hd. simpl. rewrite E. reflexivity.
Qed.

Lemma whitespace_only_upload_is_ignored_witness :
  final_text [32%N; 10%N; 9%N] sample_lab_text = sample_lab_text.
Proof.
  apply (proj1 (@whitespace_only_upload_is_ignored
                  [32%N; 10%N; 9%N] sample_lab_text
                  ltac:(discriminate) eq_refl)).
Defined.

(** C6. When the uploaded bytes are not valid UTF-8 the script warns, takes
    the empty string for the upload, and resolves the text of the text
    area. *)
Theorem undecodable_upload_falls_back_to_typed_text :
  forall (w : world) (bytes_content : Py.bytes),
    uploaded_file w = Some bytes_content ->
    Py.decode_utf8 bytes_content = None ->
    read_upload w = ([st_warning unreadable_message], Continue [])
    /\ collect w = ([st_warning unreadable_message], Continue (text_area w [])).
Proof.
  intros w b Hu Hd. split.
  - rewrite read_upload_unfold, Hu, Hd. reflexivity.
  - rewrite collect_unfold, read_upload_unfold.
    unfold resolved, file_text_of, final_text. rewrite Hu, Hd. reflexivity.
Qed.

Lemma undecodable_upload_falls_back_to_typed_text_witness :
  read_upload (upload_world latin1_upload sample_lab_text)
  = ([st_warning unreadable_message], Continue [])
  /\ collect (upload_world latin1_upload sample_lab_text)
     = ([st_warning unreadable_message], Continue sample_lab_text).
Proof.
  apply (undecodable_upload_falls_back_to_typed_text
           (upload_world latin1_upload sample_lab_text)
           (bytes_content := latin1_upload)); reflexivity.
Defined.

(* ===================================================================== *)
(** ** Submission *)
(* ===================================================================== *)

(** When both inputs are white space only, so is the resolved text. *)
Lemma blank_inputs_resolve_blank (file_text lab_text_input : Py.str) :
  forallb Py.isspace file_text = true ->
  forallb Py.isspace lab_text_input = true ->
  Py.strip (final_text file_text lab_text_input) = [].
Proof.
  intros Hf Ht. unfold final_text.
  destruct (Py.truthy (Py.strip file_text)); apply strip_nil_iff; assumption.
Qed.

(** Whatever the script does, it only calls the model with the prompt built
    from the resolved text. *)
Lemma app_calls (ul : Py.str -> nat -> N -> list N) (w : world) :
  calls (trace (app ul w))
  = if Py.truthy (Py.strip (resolved w (file_text_of w)))
    then calls (trace (app ul w))
    else [].
Proof.
  destruct (Py.truthy (Py.strip (resolved w (file_text_of w)))) eqn:B;
    [reflexivity|].
  unfold trace. rewrite app_unfold.
  destruct (GOOGLE_API_KEY w) as [key |]; [|reflexivity].
  destruct (Py.truthy key); [|reflexivity].
  destruct (init_exception w); [reflexivity|].
  destruct (read_upload_quiet w) as [C _].
  destruct (button w); simpl; rewrite calls_app, C; [|reflexivity].
  rewrite on_click_unfold, B. reflexivity.
Qed.

(** C5. A click with a resolved text that is empty once stripped shows the
    warning and stops: the handler calls nothing, and neither does the
    script as a whole. *)
Theorem blank_submission_is_rejected :
  forall (ul : Py.str -> nat -> N -> list N) (w : world) (final : Py.str),
    Py.strip final = [] ->
    on_click ul w final = ([st_warning empty_message; st_stop], Stopped)
    /\ calls (trace (on_click ul w final)) = []
    /\ (final = resolved w (file_text_of w) ->
        calls (trace (app ul w)) = []
        /\ forall google_key : Py.str,
             GOOGLE_API_KEY w = Some google_key ->
             Py.truthy google_key = true ->
             init_exception w = None ->
             button w = true ->
             app ul w
             = (genai_configure google_key
                  :: fst (read_upload w) ++ [st_warning empty_message; st_stop],
                Stopped)).
Proof.
  intros ul w final H.
  assert (E : on_click ul w final
              = ([st_warning empty_message; st_stop], Stopped)).
  { rewrite on_click_unfold, H. reflexivity. }
  split; [exact E|]. split; [rewrite E; reflexivity|].
  intros ->. split.
  - rewrite app_calls, H. reflexivity.
  - intros key Hk Ht Hi Hb.
    rewrite app_unfold, Hk, Ht, Hi, Hb, E. reflexivity.
Qed.

Lemma blank_submission_is_rejected_witness :
  on_click Py.keep_non_ascii (sample_world 0 sample_reply) [32%N; 10%N]
  = ([st_warning empty_message; st_stop], Stopped)
  /\ calls (trace (on_click Py.keep_non_ascii (sample_world 0 sample_reply)
                            [32%N; 10%N])) = [].
Proof.
  pose proof (@blank_submission_is_rejected Py.keep_non_ascii
                (sample_world 0 sample_reply) [32%N; 10%N] eq_refl)
    as H.
  split; [exact (proj1 H) | exact (proj1 (proj2 H))].
Defined.

(** The prompts of the calls of the click handler. *)
Lemma on_click_calls (ul : Py.str -> nat -> N -> list N) (w : world)
    (final : Py.str) :
  Py.truthy (Py.strip final) = true ->
  exists k : nat,
    (1 <= k <= 4)%nat
    /\ calls (trace (on_click ul w final)) = repeat (full_prompt final) k.
Proof.
  intros H. unfold trace. rewrite on_click_unfold, H.
  rewrite safe_generate_unfold. cbv zeta.
  destruct (gemini w 1 _); [exists 1%nat; split; [lia | reflexivity]|].
  destruct (gemini w 2 _); [exists 2%nat; split; [lia | reflexivity]|].
  destruct (gemini w 3 _); [exists 3%nat; split; [lia | reflexivity]|].
  destruct (gemini w 4 _); exists 4%nat; split; try lia; reflexivity.
Qed.

(** C2, as the code has it.  For a resolved text that is not blank, the
    prompt is the system instruction, the line announcing the lab result,
    the resolved text as it is, and the closing request; every generation
    call of the click handler, of which there is at least one, and every
    generation call of the script sends exactly this prompt. *)
Theorem outbound_prompt_wraps_lab_text :
  forall (ul : Py.str -> nat -> N -> list N) (w : world) (final : Py.str),
    Py.truthy (Py.strip final) = true ->
    full_prompt final
    = system_prompt
        ++ [10%N; 10%N] ++ Py.lit "Here is the lab result:" ++ [10%N]
        ++ final
        ++ [10%N; 10%N] ++ Py.lit "Explain and recommend."
    /\ (exists k : nat,
          (1 <= k <= 4)%nat
          /\ calls (trace (on_click ul w final)) = repeat (full_prompt final) k)
    /\ (final = resolved w (file_text_of w) ->
        forall p, In p (calls (trace (app ul w))) -> p = full_prompt final).
Proof.
  intros ul w final H. split; [|split].
  - unfold full_prompt, prompt_header, prompt_footer.
    rewrite <- !app_assoc. reflexivity.
  - apply on_click_calls. exact H.
  - intros -> p. unfold trace. rewrite app_unfold.
    destruct (GOOGLE_API_KEY w) as [key |]; [|simpl; tauto].
    destruct (Py.truthy key); [|simpl; tauto].
    destruct (init_exception w); [simpl; tauto|].
    destruct (read_upload_quiet w) as [C _].
    destruct (button w); simpl; rewrite calls_app, C; simpl; [|tauto].
    destruct (@on_click_calls ul w _ H) as [k [_ E]].
    unfold trace in E. rewrite E. apply repeat_spec.
Qed.

Lemma outbound_prompt_wraps_lab_text_witness :
  full_prompt sample_lab_text
  = system_prompt
      ++ [10%N; 10%N] ++ Py.lit "Here is the lab result:" ++ [10%N]
      ++ sample_lab_text
      ++ [10%N; 10%N] ++ Py.lit "Explain and recommend."
  /\ exists k : nat,
       (1 <= k <= 4)%nat
       /\ calls (trace (on_click Py.keep_non_ascii (sample_world 0 sample_reply)
                                 sample_lab_text))
          = repeat (full_prompt sample_lab_text) k.
Proof.
  pose proof (@outbound_prompt_wraps_lab_text Py.keep_non_ascii
                (sample_world 0 sample_reply) sample_lab_text eq_refl)
    as H.
  split; [exact (proj1 H) | exact (proj1 (proj2 H))].
Defined.

(** C2 as stated fails: for the sample text the script sends one prompt,
    and it is not the system instruction followed by the text. *)
Lemma sample_prompt_is_not_instruction_then_text :
  calls (trace (app Py.keep_non_ascii (sample_world 0 sample_reply)))
  = [full_prompt sample_lab_text]
  /\ full_prompt sample_lab_text <> system_prompt ++ sample_lab_text.
Proof.
  split; [reflexivity|].
  intros H. apply (f_equal (@List.length N)) in H. vm_compute in H.
  discriminate.
Qed.

(* ===================================================================== *)
(** ** Occurrences of a word in a string *)
(* ===================================================================== *)

Lemma startswith_chars (word s : Py.str) :
  Py.startswith word s = true -> forall c, In c word -> In c s.
Proof.
  revert s. induction word as [| a word IH]; intros s H c Hc; [destruct Hc|].
  destruct s as [| b s]; [discriminate|]. simpl in H.
  apply andb_true_iff in H. destruct H as [Hab Hs].
  apply N.eqb_eq in Hab. subst b.
  destruct Hc as [-> | Hc]; [left; reflexivity | right; eauto].
Qed.

(** A word that occurs in a string has all its characters in it. *)
Lemma contains_chars (word s : Py.str) :
  Py.contains word s = true -> forall c, In c word -> In c s.
Proof.
  induction s as [| b s IH]; intros H c Hc.
  - simpl in H. rewrite orb_false_r in H.
    exact (@startswith_chars word [] H c Hc).
  - change (Py.contains word (b :: s))
      with (Py.startswith word (b :: s) || Py.contains word s) in H.
    apply orb_true_iff in H. destruct H as [H | H].
    + exact (@startswith_chars word (b :: s) H c Hc).
    + right. exact (IH H c Hc).
Qed.

Lemma startswith_before_separator (word a b : Py.str) (x : N) :
  ~ In x word ->
  Py.startswith word (a ++ x :: b) = Py.startswith word a.
Proof.
  revert a. induction word as [| c word IH]; intros a Hx; [destruct a; reflexivity|].
  destruct a as [| d a]; simpl.
  - destruct (N.eqb_spec c x) as [-> | _]; [|reflexivity].
    exfalso. apply Hx. left. reflexivity.
  - rewrite IH; [reflexivity|]. intros H. apply Hx. right. exact H.
Qed.

(** A character that is not in the word cuts the search in two. *)
Lemma contains_separator (word a b : Py.str) (x : N) :
  ~ In x word ->
  Py.contains word (a ++ x :: b) = Py.contains word a || Py.contains word b.
Proof.
  intros Hx. induction a as [| d a IH].
  - change ([] ++ x :: b) with (x :: b).
    change (Py.contains word (x :: b))
      with (Py.startswith word (x :: b) || Py.contains word b).
    change (x :: b) with ([] ++ x :: b) at 1.
    rewrite startswith_before_separator by exact Hx.
    simpl. rewrite orb_false_r. reflexivity.
  - change ((d :: a) ++ x :: b) with (d :: (a ++ x :: b)).
    change (Py.contains word (d :: (a ++ x :: b)))
      with (Py.startswith word (d :: (a ++ x :: b))
            || Py.contains word (a ++ x :: b)).
    change (d :: (a ++ x :: b)) with ((d :: a) ++ x :: b).
    rewrite startswith_before_separator by exact Hx.
    rewrite IH.
    change (Py.contains word (d :: a))
      with (Py.startswith word (d :: a) || Py.contains word a).
    rewrite orb_assoc. reflexivity.
Qed.

(** On ASCII strings [lower] is the letter-wise ASCII mapping. *)
Lemma lower_from_ascii (ul : Py.str -> nat -> N -> list N)
    (data : Py.str) (i : nat) (rest : Py.str) :
  forallb (fun c => c <? 128)%N rest = true ->
  Py.lower_from ul data i rest = map Py.ascii_lower rest.
Proof.
  revert i. induction rest as [| c rest IH]; intros i H; [reflexivity|].
  simpl in H. apply andb_true_iff in H. destruct H as [Hc Hr].
  simpl. unfold Py.lower_char. rewrite Hc. simpl. rewrite IH by exact Hr.
  reflexivity.
Qed.

Lemma lower_ascii (ul : Py.str -> nat -> N -> list N) (s : Py.str) :
  forallb (fun c => c <? 128)%N s = true ->
  Py.lower ul s = map Py.ascii_lower s.
Proof. apply lower_from_ascii. Qed.

(** The digits are written four bits at a time. *)
Lemma raw_of_pos_hexdigits :
  forall (p : positive) (rest : string),
    forallb hexdigit (Py.lit rest) = true ->
    forallb hexdigit (Py.lit (HexString.Raw.of_pos p rest)) = true.
Proof.
  fix IH 1. intros p rest H.
  do 4 try destruct p as [p | p |]; cbn [HexString.Raw.of_pos];
    try (apply IH);
    change (Py.lit (String ?a ?s)) with (N_of_ascii a :: Py.lit s);
    cbn [forallb]; rewrite H; reflexivity.
Qed.

Lemma hex_shape (n : N) :
  exists digits : Py.str,
    Py.hex n = 48%N :: 120%N :: digits /\ forallb hexdigit digits = true.
Proof.
  destruct n as [| p].
  - exists [48%N]. split; reflexivity.
  - exists (Py.lit (HexString.Raw.of_pos p "")). split; [reflexivity|].
    apply raw_of_pos_hexdigits. reflexivity.
Qed.

(* ===================================================================== *)
(** ** What the click handler tells about a failure *)
(* ===================================================================== *)

Lemma ascii_lower_hexdigit (c : N) :
  hexdigit c = true -> Py.ascii_lower c = c /\ (c <? 128)%N = true /\ c <> 116%N.
Proof.
  unfold hexdigit, Py.ascii_lower. intros H.
  assert (R : (48 <= c <= 57 \/ 97 <= c <= 102)%N).
  { apply orb_true_iff in H.
    destruct H as [H | H]; apply andb_true_iff in H; destruct H as [Ha Hb];
      apply N.leb_le in Ha, Hb; lia. }
  clear H.
  destruct (N.leb_spec 65 c), (N.leb_spec c 90); simpl;
    repeat split; try apply N.ltb_lt; lia.
Qed.

(** The string of a [RetryError]: fixed text, the digits of the future's
    address, fixed text, and the class name of the last exception. *)
Lemma RetryError_str_shape (f : Tenacity.Future) :
  exists digits : Py.str,
    forallb hexdigit digits = true
    /\ Tenacity.RetryError_str (Tenacity.mkRetryError f)
       = Py.lit "RetryError[<Future at 0" ++ 120%N :: digits
         ++ 32%N :: Py.lit "state=finished raised"
         ++ 32%N :: class_name (Tenacity.exception f) ++ [62%N; 93%N].
Proof.
  destruct (hex_shape (Tenacity.id f)) as [digits [E H]].
  exists digits. split; [exact H|].
  unfold Tenacity.RetryError_str, Tenacity.Future_repr. simpl Tenacity.last_attempt.
  rewrite E. rewrite <- !app_assoc. reflexivity.
Qed.

Lemma contains_in_RetryError_str (word prefix digits middle cls : Py.str) :
  ~ In 120%N word -> ~ In 32%N word -> ~ In 62%N word ->
  In 116%N word -> ~ In 116%N digits ->
  Py.contains word prefix = false ->
  Py.contains word middle = false ->
  Py.contains word [93%N] = false ->
  Py.contains word
    (prefix ++ 120%N :: digits ++ 32%N :: middle ++ 32%N :: cls ++ [62%N; 93%N])
  = Py.contains word cls.
Proof.
  intros Hx Hs Hg Ht Hd Hp Hm Hb.
  change (cls ++ [62%N; 93%N]) with (cls ++ 62%N :: [93%N]).
  rewrite !contains_separator by assumption.
  rewrite Hp, Hm, Hb, orb_false_r. simpl.
  destruct (Py.contains word digits) eqn:E; [|reflexivity].
  exfalso. apply Hd. exact (@contains_chars word digits E 116%N Ht).
Qed.

(** After the retries the click handler reads the string of the
    [RetryError]; for an ASCII class name, it finds a keyword there exactly
    when the class name of the last exception holds one.  The message of
    that exception is not looked at. *)
Lemma mentions_limit_RetryError (ul : Py.str -> nat -> N -> list N)
    (f : Tenacity.Future) :
  forallb (fun c => c <? 128)%N (class_name (Tenacity.exception f)) = true ->
  mentions_limit ul (Tenacity.RetryError_str (Tenacity.mkRetryError f))
  = existsb (fun word =>
               Py.contains word
                 (map Py.ascii_lower (class_name (Tenacity.exception f))))
            keywords.
Proof.
  intros Hc.
  destruct (RetryError_str_shape f) as [digits [Hd E]].
  unfold mentions_limit. rewrite E. clear E.
  set (cls := class_name (Tenacity.exception f)) in *.
  assert (A : forallb (fun c => c <? 128)%N
                (Py.lit "RetryError[<Future at 0" ++ 120%N :: digits
                 ++ 32%N :: Py.lit "state=finished raised"
                 ++ 32%N :: cls ++ [62%N; 93%N]) = true).
  { assert (Hd' : forallb (fun c => c <? 128)%N digits = true).
    { apply forallb_forall. intros c Hin.
      rewrite forallb_forall in Hd. apply ascii_lower_hexdigit. auto. }
    repeat (rewrite forallb_app || cbn [forallb]).
    rewrite Hc, Hd'. reflexivity. }
  rewrite (lower_ascii ul _ A). clear A.
  assert (M : map Py.ascii_lower
                (Py.lit "RetryError[<Future at 0" ++ 120%N :: digits
                 ++ 32%N :: Py.lit "state=finished raised"
                 ++ 32%N :: cls ++ [62%N; 93%N])
              = map Py.ascii_lower (Py.lit "RetryError[<Future at 0")
                ++ 120%N :: map Py.ascii_lower digits
                ++ 32%N :: map Py.ascii_lower (Py.lit "state=finished raised")
                ++ 32%N :: map Py.ascii_lower cls ++ [62%N; 93%N]).
  { repeat (rewrite map_app || rewrite map_cons). reflexivity. }
  rewrite M. clear M.
  assert (D : ~ In 116%N (map Py.ascii_lower digits)).
  { intros H. apply in_map_iff in H. destruct H as [d [Hl Hin]].
    rewrite forallb_forall in Hd.
    destruct (ascii_lower_hexdigit d (Hd d Hin)) as [L [_ T]].
    congruence. }
  unfold keywords. cbn [existsb].
  rewrite !contains_in_RetryError_str; try assumption; try reflexivity;
    try (simpl; intuition discriminate); simpl; tauto.
Qed.

(** After four failed attempts the click handler shows one error: the
    quota message when the class name of the last exception holds a
    keyword, and otherwise the generic message with the string of the
    [RetryError].  Two last exceptions of one class are told in the same
    words, whatever their messages. *)
Lemma exhausted_retries_message (ul : Py.str -> nat -> N -> list N)
    (w : world) (final : Py.str) (e4 : Exception) :
  Py.truthy (Py.strip final) = true ->
  (forall j, (1 <= j < 4)%nat ->
             exists e, gemini w j (full_prompt final) = inr e) ->
  gemini w 4 (full_prompt final) = inr e4 ->
  forallb (fun c => c <? 128)%N (class_name e4) = true ->
  trace (on_click ul w final)
  = fst (safe_generate w (full_prompt final))
    ++ [st_error
          (if existsb (fun word =>
                         Py.contains word (map Py.ascii_lower (class_name e4)))
                      keywords
           then quota_message
           else generic_message
                  (Tenacity.RetryError_str
                     (Tenacity.mkRetryError
                        (Tenacity.mkFuture (future_id w 4) 4 e4))))].
Proof.
  intros Hf H H4 Hc.
  destruct (safe_generate_after_four_failures w (full_prompt final) H H4)
    as [S _].
  unfold trace. rewrite on_click_unfold, Hf.
  destruct (safe_generate w (full_prompt final)) as [tr r].
  simpl in S. subst r. simpl. unfold failure_message.
  rewrite mentions_limit_RetryError by exact Hc. reflexivity.
Qed.

(** C4 on a quota error.  The model answers every attempt with
    [ResourceExhausted] and a message that names the quota.  The handler
    receives the [RetryError] of tenacity, whose string holds the class
    name and not the message: it shows the generic message, and the quota
    message is not displayed. *)
Theorem quota_error_shows_generic_message :
  forall ul : Py.str -> nat -> N -> list N,
    mentions_limit ul (message quota_exceeded) = true
    /\ calls (trace (app ul (sample_world 4 sample_reply)))
       = repeat (full_prompt sample_lab_text) 4
    /\ last (trace (app ul (sample_world 4 sample_reply))) st_stop
       = st_error
           (generic_message
              (Py.lit "RetryError[<Future at 0x7f3a5c0b1d90 state=finished raised ResourceExhausted>]"))
    /\ ~ In (st_error quota_message)
            (trace (app ul (sample_world 4 sample_reply))).
Proof.
  intros ul.
  set (w := sample_world 4 sample_reply).
  assert (A : app ul w
              = (genai_configure (Py.lit "AIza-test-key")
                   :: fst (on_click ul w sample_lab_text),
                 snd (on_click ul w sample_lab_text))).
  { rewrite app_unfold. reflexivity. }
  assert (E : fst (on_click ul w sample_lab_text)
              = fst (safe_generate w (full_prompt sample_lab_text))
                ++ [st_error
                      (generic_message
                         (Py.lit "RetryError[<Future at 0x7f3a5c0b1d90 state=finished raised ResourceExhausted>]"))]).
  { change (fst (on_click ul w sample_lab_text))
      with (trace (on_click ul w sample_lab_text)).
    rewrite (@exhausted_retries_message ul w sample_lab_text quota_exceeded).
    - reflexivity.
    - reflexivity.
    - intros j Hj. exists quota_exceeded.
      destruct j as [| [| [| [| j]]]]; try lia; reflexivity.
    - reflexivity.
    - reflexivity. }
  assert (T : trace (app ul w)
              = genai_configure (Py.lit "AIza-test-key")
                  :: fst (safe_generate w (full_prompt sample_lab_text))
                  ++ [st_error
                        (generic_message
                           (Py.lit "RetryError[<Future at 0x7f3a5c0b1d90 state=finished raised ResourceExhausted>]"))]).
  { unfold trace. rewrite A, <- E. reflexivity. }
  rewrite T. clear A E T.
  split; [|split; [|split]].
  - unfold mentions_limit. rewrite lower_ascii by reflexivity. reflexivity.
  - reflexivity.
  - reflexivity.
  - vm_compute. intuition discriminate.
Qed.

(* ===================================================================== *)
(** ** The run as a whole *)
(* ===================================================================== *)

Lemma errors_app (a b : list action) :
  errors (a ++ b) = errors a ++ errors b.
Proof.
  induction a as [| x a IH]; simpl; [reflexivity|].
  destruct x; simpl; rewrite ?IH; reflexivity.
Qed.

Lemma warnings_app (a b : list action) :
  warnings (a ++ b) = warnings a ++ warnings b.
Proof.
  induction a as [| x a IH]; simpl; [reflexivity|].
  destruct x; simpl; rewrite ?IH; reflexivity.
Qed.

Lemma configured_app (a b : list action) :
  configured (a ++ b) = configured a ++ configured b.
Proof.
  induction a as [| x a IH]; simpl; [reflexivity|].
  destruct x; simpl; rewrite ?IH; reflexivity.
Qed.

(** An action of [safe_generate] is the generation call with the fixed
    sampling parameters, or a sleep. *)
Lemma safe_generate_actions (w : world) (prompt : Py.str) (a : action) :
  In a (fst (safe_generate w prompt)) ->
  a = generate_content prompt (25 # 100) 512 \/ exists d, a = time_sleep d.
Proof.
  rewrite safe_generate_unfold. cbv zeta.
  destruct (gemini w 1 prompt);
    [|destruct (gemini w 2 prompt);
      [|destruct (gemini w 3 prompt); [|destruct (gemini w 4 prompt)]]];
    simpl; intros H;
    repeat (destruct H as [H | H]; [subst a; eauto|]); destruct H.
Qed.

(** The upload handling only ever warns. *)
Lemma read_upload_actions (w : world) (a : action) :
  In a (fst (read_upload w)) -> a = st_warning unreadable_message.
Proof.
  rewrite read_upload_unfold.
  destruct (uploaded_file w) as [b |]; [|intros []].
  destruct (Py.decode_utf8 b); simpl; [intros [] | intros [<- | []]; reflexivity].
Qed.

(** X1. When the client cannot be initialised the script shows the error
    with the text of the exception and stops: the upload is not read, the
    button is not looked at and the model is not called. *)
Theorem init_failure_halts_before_upload :
  forall (ul : Py.str -> nat -> N -> list N) (w : world)
         (google_key : Py.str) (e : Exception),
    GOOGLE_API_KEY w = Some google_key ->
    google_key <> [] ->
    init_exception w = Some e ->
    app ul w
    = ([genai_configure google_key;
        st_error (0x1F613%N :: Py.lit " Could not initialise Gemini: "
                    ++ message e);
        st_stop], Stopped)
    /\ calls (trace (app ul w)) = []
    /\ warnings (trace (app ul w)) = [].
Proof.
  intros ul w key e Hk Hn Hi.
  assert (E : app ul w
    = ([genai_configure key;
        st_error (0x1F613%N :: Py.lit " Could not initialise Gemini: "
                    ++ message e);
        st_stop], Stopped)).
  { rewrite app_unfold, Hk, Hi. destruct key; [contradiction | reflexivity]. }
  rewrite E. repeat split.
Qed.

Lemma init_failure_halts_before_upload_witness :
  app Py.keep_non_ascii init_failure_world
  = ([genai_configure (Py.lit "AIza-test-key");
      st_error (0x1F613%N :: Py.lit " Could not initialise Gemini: "
                  ++ Py.lit "Invalid API key");
      st_stop], Stopped)
  /\ calls (trace (app Py.keep_non_ascii init_failure_world)) = []
  /\ warnings (trace (app Py.keep_non_ascii init_failure_world)) = [].
Proof.
  apply (@init_failure_halts_before_upload Py.keep_non_ascii init_failure_world
           (Py.lit "AIza-test-key") invalid_key eq_refl);
    [discriminate | reflexivity].
Defined.

(** X2. Without a click the script calls nothing and displays neither an
    answer nor an error: with a key and a client it only configures the
    client and handles the upload, and runs to its end. *)
Theorem no_click_no_generation :
  forall (ul : Py.str -> nat -> N -> list N) (w : world),
    button w = false ->
    calls (trace (app ul w)) = []
    /\ written (trace (app ul w)) = []
    /\ (forall google_key : Py.str,
          GOOGLE_API_KEY w = Some google_key ->
          google_key <> [] ->
          init_exception w = None ->
          app ul w
          = (genai_configure google_key :: fst (read_upload w), Continue tt)).
Proof.
  intros ul w Hb.
  destruct (read_upload_quiet w) as [C W].
  split; [|split].
  - unfold trace. rewrite app_unfold, Hb.
    destruct (GOOGLE_API_KEY w) as [key |]; [|reflexivity].
    destruct (Py.truthy key); [|reflexivity].
    destruct (init_exception w); [reflexivity|].
    simpl. rewrite calls_app, C. reflexivity.
  - unfold trace. rewrite app_unfold, Hb.
    destruct (GOOGLE_API_KEY w) as [key |]; [|reflexivity].
    destruct (Py.truthy key); [|reflexivity].
    destruct (init_exception w); [reflexivity|].
    simpl. rewrite written_app, W. reflexivity.
  - intros key Hk Hn Hi. rewrite app_unfold, Hk, Hi, Hb, app_nil_r.
    destruct key; [contradiction | reflexivity].
Qed.

Lemma no_click_no_generation_witness :
  calls (trace (app Py.keep_non_ascii idle_world)) = []
  /\ written (trace (app Py.keep_non_ascii idle_world)) = [].
Proof.
  pose proof (@no_click_no_generation Py.keep_non_ascii idle_world eq_refl) as H.
  split; [exact (proj1 H) | exact (proj1 (proj2 H))].
Defined.

(** X3. The model is called only in a run that has a non-empty key, a
    client initialised without exception, a click and a resolved text that
    is not blank; such a run starts by configuring the client with that
    key. *)
Theorem model_called_only_after_setup :
  forall (ul : Py.str -> nat -> N -> list N) (w : world),
    calls (trace (app ul w)) <> [] ->
    exists google_key : Py.str,
      GOOGLE_API_KEY w = Some google_key
      /\ google_key <> []
      /\ init_exception w = None
      /\ button w = true
      /\ Py.strip (resolved w (file_text_of w)) <> []
      /\ hd st_stop (trace (app ul w)) = genai_configure google_key.
Proof.
  intros ul w. unfold trace. rewrite app_unfold.
  destruct (read_upload_quiet w) as [C _].
  destruct (GOOGLE_API_KEY w) as [key |]; [|simpl; congruence].
  destruct key as [| c key]; [simpl; congruence|]. simpl Py.truthy. cbv iota.
  destruct (init_exception w); [simpl; congruence|].
  destruct (button w); simpl fst; simpl calls; rewrite calls_app, C;
    [|simpl; congruence].
  simpl app. rewrite on_click_unfold.
  destruct (Py.strip (resolved w (file_text_of w))) eqn:S; [simpl; congruence|].
  intros _. exists (c :: key). repeat split; congruence.
Qed.

Lemma model_called_only_after_setup_witness :
  exists google_key : Py.str,
    GOOGLE_API_KEY (sample_world 0 sample_reply) = Some google_key
    /\ google_key <> []
    /\ init_exception (sample_world 0 sample_reply) = None
    /\ button (sample_world 0 sample_reply) = true
    /\ Py.strip (resolved (sample_world 0 sample_reply)
                          (file_text_of (sample_world 0 sample_reply))) <> []
    /\ hd st_stop (trace (app Py.keep_non_ascii (sample_world 0 sample_reply)))
       = genai_configure google_key.
Proof.
  apply (@model_called_only_after_setup Py.keep_non_ascii
           (sample_world 0 sample_reply)).
  vm_compute. discriminate.
Defined.

(** X4. Every generation call of every run carries the prompt built from
    the resolved text and the same sampling parameters: temperature 0.25
    and at most 512 output tokens. *)
Theorem every_call_uses_fixed_sampling :
  forall (ul : Py.str -> nat -> N -> list N) (w : world)
         (p : Py.str) (temperature : Q) (max_output_tokens : N),
    In (generate_content p temperature max_output_tokens) (trace (app ul w)) ->
    p = full_prompt (resolved w (file_text_of w))
    /\ temperature = 25 # 100
    /\ max_output_tokens = 512%N.
Proof.
  intros ul w p t m. unfold trace. rewrite app_unfold.
  destruct (GOOGLE_API_KEY w) as [key |];
    [|simpl; intuition discriminate].
  destruct (Py.truthy key); [|simpl; intuition discriminate].
  destruct (init_exception w); [simpl; intuition discriminate|].
  assert (U : ~ In (generate_content p t m) (fst (read_upload w))).
  { intros H. apply read_upload_actions in H. discriminate. }
  destruct (button w); cbn [fst]; intros H;
    (destruct H as [H | H]; [discriminate|]);
    apply in_app_or in H; (destruct H as [H | H]; [contradiction|]).
  2:{ destruct H. }
  rewrite on_click_unfold in H.
  destruct (Py.truthy _); [|simpl in H; intuition discriminate].
  pose proof (@safe_generate_actions w
                (full_prompt (resolved w (file_text_of w)))
                (generate_content p t m)) as A.
  destruct (safe_generate w _) as [tr [answer | e]]; simpl in *;
    apply in_app_or in H; destruct H as [H | H];
    try (simpl in H; intuition discriminate);
    destruct (A H) as [E | [d E]]; try discriminate;
    injection E as -> -> ->; repeat split.
Qed.

Lemma every_call_uses_fixed_sampling_witness :
  full_prompt sample_lab_text
  = full_prompt (resolved (sample_world 1 sample_reply)
                          (file_text_of (sample_world 1 sample_reply)))
  /\ 25 # 100 = 25 # 100
  /\ 512%N = 512%N.
Proof.
  apply (@every_call_uses_fixed_sampling Py.keep_non_ascii
           (sample_world 1 sample_reply)
           (full_prompt sample_lab_text) (25 # 100) 512%N).
  vm_compute. right. left. reflexivity.
Defined.

(** X5. A click with a key, a client and a text that is not blank always
    ends in exactly one of two ways: the success banner and one displayed
    answer and no error, or one error and neither banner nor answer.  In
    both the script runs to its end. *)
Theorem click_shows_one_answer_or_one_error :
  forall (ul : Py.str -> nat -> N -> list N) (w : world) (google_key : Py.str),
    GOOGLE_API_KEY w = Some google_key ->
    google_key <> [] ->
    init_exception w = None ->
    button w = true ->
    Py.strip (resolved w (file_text_of w)) <> [] ->
    snd (app ul w) = Continue tt
    /\ ((exists answer : Py.str,
           written (trace (app ul w)) = [answer]
           /\ errors (trace (app ul w)) = []
           /\ existsb is_success (trace (app ul w)) = true)
        \/ (exists shown : Py.str,
              written (trace (app ul w)) = []
              /\ errors (trace (app ul w)) = [shown]
              /\ existsb is_success (trace (app ul w)) = false)).
Proof.
  intros ul w key Hk Hn Hi Hb Hs. unfold trace.
  rewrite app_unfold, Hk, Hi, Hb.
  destruct key as [| c key]; [contradiction|]. simpl Py.truthy. cbv iota.
  rewrite on_click_unfold.
  destruct (Py.strip (resolved w (file_text_of w))) as [| c0 s0];
    [contradiction|]. simpl Py.truthy. cbv iota.
  destruct (read_upload_quiet w) as [_ W].
  assert (UE : errors (fst (read_upload w)) = []
               /\ existsb is_success (fst (read_upload w)) = false).
  { rewrite read_upload_unfold.
    destruct (uploaded_file w) as [b |]; [|split; reflexivity].
    destruct (Py.decode_utf8 b); split; reflexivity. }
  destruct UE as [UE US].
  set (prompt := full_prompt (resolved w (file_text_of w))).
  pose proof (safe_generate_writes_nothing w prompt) as GW.
  assert (GE : errors (fst (safe_generate w prompt)) = []
               /\ existsb is_success (fst (safe_generate w prompt)) = false).
  { rewrite safe_generate_unfold. cbv zeta.
    destruct (gemini w 1 prompt); [split; reflexivity|].
    destruct (gemini w 2 prompt); [split; reflexivity|].
    destruct (gemini w 3 prompt); [split; reflexivity|].
    destruct (gemini w 4 prompt); split; reflexivity. }
  destruct GE as [GE GS].
  destruct (safe_generate w prompt) as [tr [answer | e]]; simpl in *;
    (split; [reflexivity|]).
  - left. exists answer.
    rewrite !written_app, !errors_app, !existsb_app, W, UE, US, GW, GE, GS.
    repeat split.
  - right. eexists.
    rewrite !written_app, !errors_app, !existsb_app, W, UE, US, GW, GE, GS.
    repeat split.
Qed.

Lemma click_shows_one_answer_or_one_error_witness :
  snd (app Py.keep_non_ascii (sample_world 4 sample_reply)) = Continue tt
  /\ ((exists answer : Py.str,
         written (trace (app Py.keep_non_ascii (sample_world 4 sample_reply)))
         = [answer]
         /\ errors (trace (app Py.keep_non_ascii (sample_world 4 sample_reply)))
            = []
         /\ existsb is_success
              (trace (app Py.keep_non_ascii (sample_world 4 sample_reply)))
            = true)
      \/ (exists shown : Py.str,
            written (trace (app Py.keep_non_ascii (sample_world 4 sample_reply)))
            = []
            /\ errors (trace (app Py.keep_non_ascii (sample_world 4 sample_reply)))
               = [shown]
            /\ existsb is_success
                 (trace (app Py.keep_non_ascii (sample_world 4 sample_reply)))
               = false)).
Proof.
  apply (@click_shows_one_answer_or_one_error Py.keep_non_ascii
           (sample_world 4 sample_reply) (Py.lit "AIza-test-key") eq_refl);
    try reflexivity; discriminate.
Defined.

(** X6. The sleeps of [safe_generate] add up to 12 seconds for each attempt
    after the first: never more than 36 seconds, and 36 seconds exactly
    before it gives up. *)
Theorem retry_sleeps_total_at_most_36 :
  forall (w : world) (prompt : Py.str),
    total (sleeps (fst (safe_generate w prompt)))
    == 12 * inject_Z (Z.of_nat
                        (List.length (calls (fst (safe_generate w prompt))) - 1))
    /\ total (sleeps (fst (safe_generate w prompt))) <= 36
    /\ (forall e : Tenacity.RetryError,
          snd (safe_generate w prompt) = inr e ->
          total (sleeps (fst (safe_generate w prompt))) == 36).
Proof.
  intros w prompt. rewrite safe_generate_unfold. cbv zeta.
  assert (W : forall n, (1 <= n <= 3)%nat ->
              Tenacity.wait_random_exponential 12 60 (random w n) n == 12).
  { intros n Hn. apply wait_random_exponential_first_three. exact Hn. }
  pose proof (W 1%nat ltac:(lia)) as W1.
  pose proof (W 2%nat ltac:(lia)) as W2.
  pose proof (W 3%nat ltac:(lia)) as W3.
  destruct (gemini w 1 prompt);
    [|destruct (gemini w 2 prompt);
      [|destruct (gemini w 3 prompt); [|destruct (gemini w 4 prompt)]]];
    cbn [fst snd sleeps calls total fold_right List.length];
    rewrite ?W1, ?W2, ?W3;
    (split; [reflexivity | split; [unfold Qle; simpl; lia |]]);
    intros err H; try discriminate; rewrite ?W1, ?W2, ?W3; reflexivity.
Qed.

Lemma retry_sleeps_total_at_most_36_witness :
  total (sleeps (fst (safe_generate (failing_world quota_exceeded)
                                    (full_prompt sample_lab_text)))) == 36.
Proof.
  apply (proj2 (proj2 (retry_sleeps_total_at_most_36
                         (failing_world quota_exceeded)
                         (full_prompt sample_lab_text)))
               (Tenacity.mkRetryError
                  (Tenacity.mkFuture 0x7f3a5c0b1d90%N 4 quota_exceeded))).
  reflexivity.
Defined.

Lemma lstrip_slice (s : Py.str) :
  exists pre : Py.str,
    s = pre ++ Py.lstrip s /\ forallb Py.isspace pre = true.
Proof.
  induction s as [| c r [pre [E H]]]; [exists []; split; reflexivity|].
  simpl. destruct (Py.isspace c) eqn:Hc.
  - exists (c :: pre). simpl. rewrite Hc, H. split; [f_equal; exact E | reflexivity].
  - exists []. split; reflexivity.
Qed.

(** [strip] cuts white space off both ends and leaves the rest as it is. *)
Lemma strip_slice (s : Py.str) :
  exists pre post : Py.str,
    s = pre ++ Py.strip s ++ post
    /\ forallb Py.isspace pre = true /\ forallb Py.isspace post = true.
Proof.
  destruct (lstrip_slice s) as [pre [E H]].
  destruct (lstrip_slice (rev (Py.lstrip s))) as [p [Ep Hp]].
  exists pre, (rev p). repeat split; [|exact H|rewrite forallb_rev; exact Hp].
  unfold Py.strip, Py.rstrip.
  rewrite <- rev_app_distr, <- Ep, rev_involutive. exact E.
Qed.

(** The result of [safe_generate] comes from the first attempt that
    answers. *)
Lemma safe_generate_first_answer (w : world) (prompt answer : Py.str) :
  snd (safe_generate w prompt) = inl answer ->
  exists (k : nat) (text : Py.str),
    (1 <= k <= 4)%nat
    /\ (forall j, (1 <= j < k)%nat -> exists e, gemini w j prompt = inr e)
    /\ gemini w k prompt = inl text
    /\ answer = Py.strip text
    /\ List.length (calls (fst (safe_generate w prompt))) = k.
Proof.
  rewrite safe_generate_unfold. cbv zeta.
  destruct (gemini w 1 prompt) as [t1 | e1] eqn:E1.
  { intros [= <-]. exists 1%nat, t1.
    split; [lia|]. split; [intros j Hj; lia|]. repeat split; auto. }
  destruct (gemini w 2 prompt) as [t2 | e2] eqn:E2.
  { intros [= <-]. exists 2%nat, t2.
    split; [lia|]. split; [|repeat split; auto].
    intros j Hj. assert (j = 1%nat) as -> by lia. eauto. }
  destruct (gemini w 3 prompt) as [t3 | e3] eqn:E3.
  { intros [= <-]. exists 3%nat, t3.
    split; [lia|]. split; [|repeat split; auto].
    intros j Hj. assert (j = 1 \/ j = 2)%nat as [-> | ->] by lia; eauto. }
  destruct (gemini w 4 prompt) as [t4 | e4] eqn:E4.
  { intros [= <-]. exists 4%nat, t4.
    split; [lia|]. split; [|repeat split; auto].
    intros j Hj.
    assert (j = 1 \/ j = 2 \/ j = 3)%nat as [-> | [-> | ->]] by lia; eauto. }
  discriminate.
Qed.

(** X7. The answer [safe_generate] returns is the response of the first
    attempt that did not raise, less the white space at its two ends: the
    response is white space, the answer, white space, and nothing inside
    the answer is changed.  The number of calls is the number of that
    attempt. *)
Theorem answer_is_first_response_trimmed :
  forall (w : world) (prompt answer : Py.str),
    snd (safe_generate w prompt) = inl answer ->
    exists (k : nat) (text pre post : Py.str),
      (1 <= k <= 4)%nat
      /\ (forall j, (1 <= j < k)%nat -> exists e, gemini w j prompt = inr e)
      /\ gemini w k prompt = inl text
      /\ text = pre ++ answer ++ post
      /\ forallb Py.isspace pre = true
      /\ forallb Py.isspace post = true
      /\ List.length (calls (fst (safe_generate w prompt))) = k.
Proof.
  intros w prompt answer H.
  destruct (safe_generate_first_answer w prompt H)
    as [k [text [Hk [Hf [Hg [-> Hc]]]]]].
  destruct (strip_slice text) as [pre [post [E [Hpre Hpost]]]].
  exists k, text, pre, post. repeat split; try assumption; lia.
Qed.

Lemma answer_is_first_response_trimmed_witness :
  exists (k : nat) (text pre post : Py.str),
    (1 <= k <= 4)%nat
    /\ (forall j, (1 <= j < k)%nat ->
        exists e, gemini (sample_world 2 (Py.lit " ok "))
                         j (full_prompt sample_lab_text) = inr e)
    /\ gemini (sample_world 2 (Py.lit " ok ")) k (full_prompt sample_lab_text)
       = inl text
    /\ text = pre ++ Py.lit "ok" ++ post
    /\ forallb Py.isspace pre = true
    /\ forallb Py.isspace post = true
    /\ List.length (calls (fst (safe_generate (sample_world 2 (Py.lit " ok "))
                                              (full_prompt sample_lab_text))))
       = k.
Proof.
  apply (@answer_is_first_response_trimmed (sample_world 2 (Py.lit " ok "))
           (full_prompt sample_lab_text) (Py.lit "ok")).
  reflexivity.
Defined.

(* ===================================================================== *)
(** ** Uploads *)
(* ===================================================================== *)

(** ASCII bytes decode to the characters of the same numbers. *)
Lemma decode_utf8_ascii (bs : list N) :
  forallb (fun b => b <? 0x80)%N bs = true -> Py.decode_utf8_N bs = Some bs.
Proof.
  induction bs as [| b0 t0 IH]; [reflexivity|].
  intros H. simpl in H. apply andb_true_iff in H. destruct H as [H0 Ht].
  cbn [Py.decode_utf8_N]. rewrite H0, (IH Ht). reflexivity.
Qed.

Lemma forallb_to_N (f : N -> bool) (b : Py.bytes) :
  forallb f (map Byte.to_N b) = forallb (fun x => f (Byte.to_N x)) b.
Proof.
  induction b as [| x b IH]; simpl; [reflexivity|]. rewrite IH. reflexivity.
Qed.

(** X8. An uploaded file made of ASCII bytes only is always readable: no
    warning is shown and [file_text] holds one character per byte, with
    the number of the byte. *)
Theorem ascii_upload_is_read_verbatim :
  forall (w : world) (bytes_content : Py.bytes),
    uploaded_file w = Some bytes_content ->
    forallb (fun x => Byte.to_N x <? 0x80)%N bytes_content = true ->
    read_upload w = ([], Continue (map Byte.to_N bytes_content))
    /\ file_text_of w = map Byte.to_N bytes_content.
Proof.
  intros w b Hu Ha.
  assert (D : Py.decode_utf8 b = Some (map Byte.to_N b)).
  { unfold Py.decode_utf8. apply decode_utf8_ascii.
    rewrite forallb_to_N. exact Ha. }
  split.
  - rewrite read_upload_unfold, Hu, D. reflexivity.
  - unfold file_text_of. rewrite Hu, D. reflexivity.
Qed.

Lemma ascii_upload_is_read_verbatim_witness :
  read_upload (upload_world [Byte.x4c; Byte.x44; Byte.x4c] sample_lab_text)
  = ([], Continue (Py.lit "LDL"))
  /\ file_text_of (upload_world [Byte.x4c; Byte.x44; Byte.x4c] sample_lab_text)
     = Py.lit "LDL".
Proof.
  apply (@ascii_upload_is_read_verbatim
           (upload_world [Byte.x4c; Byte.x44; Byte.x4c] sample_lab_text)
           [Byte.x4c; Byte.x44; Byte.x4c]); reflexivity.
Defined.

Lemma never_in_utf8_from_C0 (b : N) :
  never_in_utf8 b = true -> (0xC0 <= b)%N /\ b <> 0xC2%N /\ ~ (0xC2 <= b <= 0xF4)%N.
Proof.
  unfold never_in_utf8. intros H.
  apply orb_true_iff in H. destruct H as [H | H].
  - apply orb_true_iff in H. destruct H as [H | H]; apply N.eqb_eq in H; lia.
  - apply N.leb_le in H. lia.
Qed.

Lemma between_bounds (lo hi b : N) :
  Py.between lo hi b = true -> (lo <= b <= hi)%N.
Proof.
  unfold Py.between. intros H. apply andb_true_iff in H.
  destruct H as [H1 H2]. apply N.leb_le in H1, H2. lia.
Qed.

(** Closes a case in which a byte that is in no UTF-8 text has passed a
    test of the decoder. *)
Ltac impossible_byte :=
  repeat match goal with
         | H : (_ <? _)%N = true |- _ => apply N.ltb_lt in H
         | H : Py.between _ _ _ = true |- _ => apply between_bounds in H
         | H : Py.continuation _ = true |- _ =>
             change (Py.continuation ?b) with (Py.between 0x80 0xBF b) in H
         | H : never_in_utf8 _ = true |- _ => apply never_in_utf8_from_C0 in H
         | H : context [if ?c then _ else _] |- _ => destruct c
         end;
  lia.

Lemma decode_utf8_rejects_impossible_byte (n : nat) :
  forall (bs : list N) (b : N),
    (List.length bs <= n)%nat ->
    never_in_utf8 b = true -> In b bs -> Py.decode_utf8_N bs = None.
Proof.
  induction n as [| n IH]; intros bs b Hl Hb Hin.
  { destruct bs; [destruct Hin | simpl in Hl; lia]. }
  destruct bs as [| b0 t0]; [destruct Hin|].
  cbn [Py.decode_utf8_N]. simpl in Hl.
  destruct (b0 <? 0x80)%N eqn:A.
  { destruct Hin as [-> | Hin]; [impossible_byte|].
    rewrite (IH t0 b); [reflexivity | lia | exact Hb | exact Hin]. }
  destruct (Py.between 0xC2 0xDF b0) eqn:B2.
  { destruct t0 as [| b1 t1]; [reflexivity|].
    destruct (Py.continuation b1) eqn:C1; [|reflexivity].
    simpl in Hl.
    destruct Hin as [-> | [-> | Hin]]; try impossible_byte.
    rewrite (IH t1 b); [reflexivity | lia | exact Hb | exact Hin]. }
  destruct (Py.between 0xE0 0xEF b0) eqn:B3.
  { destruct t0 as [| b1 [| b2 t2]]; try reflexivity.
    destruct (Py.between _ _ b1) eqn:C1; [|reflexivity].
    destruct (Py.continuation b2) eqn:C2; [|reflexivity].
    simpl in Hl. cbn [andb].
    destruct Hin as [-> | [-> | [-> | Hin]]]; try impossible_byte.
    rewrite (IH t2 b); [reflexivity | lia | exact Hb | exact Hin]. }
  destruct (Py.between 0xF0 0xF4 b0) eqn:B4; [|reflexivity].
  destruct t0 as [| b1 [| b2 [| b3 t3]]]; try reflexivity.
  destruct (Py.between _ _ b1) eqn:C1; [|reflexivity].
  destruct (Py.continuation b2) eqn:C2; [|reflexivity].
  destruct (Py.continuation b3) eqn:C3; [|reflexivity].
  simpl in Hl. cbn [andb].
  destruct Hin as [-> | [-> | [-> | [-> | Hin]]]]; try impossible_byte.
  rewrite (IH t3 b); [reflexivity | lia | exact Hb | exact Hin].
Qed.

(** X9. An uploaded file that holds, anywhere, one of the bytes 0xC0, 0xC1
    or 0xF5 to 0xFF is refused as a whole: the script warns, keeps nothing
    of the file and resolves the text of the text area. *)
Theorem upload_with_impossible_byte_is_refused :
  forall (w : world) (bytes_content : Py.bytes) (x : Byte.byte),
    uploaded_file w = Some bytes_content ->
    In x bytes_content ->
    never_in_utf8 (Byte.to_N x) = true ->
    Py.decode_utf8 bytes_content = None
    /\ collect w = ([st_warning unreadable_message], Continue (text_area w [])).
Proof.
  intros w b x Hu Hin Hx.
  assert (D : Py.decode_utf8 b = None).
  { unfold Py.decode_utf8.
    apply (@decode_utf8_rejects_impossible_byte
             (List.length (map Byte.to_N b)) _ (Byte.to_N x));
      [lia | exact Hx | apply in_map; exact Hin]. }
  split; [exact D|].
  rewrite collect_unfold, read_upload_unfold.
  unfold resolved, file_text_of, final_text. rewrite Hu, D. reflexivity.
Qed.

Lemma upload_with_impossible_byte_is_refused_witness :
  Py.decode_utf8 [Byte.x4c; Byte.x44; Byte.x4c; Byte.xff; Byte.x0a] = None
  /\ collect (upload_world [Byte.x4c; Byte.x44; Byte.x4c; Byte.xff; Byte.x0a]
                           sample_lab_text)
     = ([st_warning unreadable_message], Continue sample_lab_text).
Proof.
  apply (@upload_with_impossible_byte_is_refused
           (upload_world [Byte.x4c; Byte.x44; Byte.x4c; Byte.xff; Byte.x0a]
                         sample_lab_text)
           [Byte.x4c; Byte.x44; Byte.x4c; Byte.xff; Byte.x0a] Byte.xff eq_refl).
  - simpl. tauto.
  - reflexivity.
Defined.

(** X10. A click after uploading a file that is empty or white space only,
    with the text area left as it was pre-filled, is rejected like an empty
    submission: the only message is the request for input, and the model
    is not called. *)
Theorem blank_upload_left_untouched_is_rejected :
  forall (ul : Py.str -> nat -> N -> list N) (w : world)
         (google_key : Py.str) (bytes_content : Py.bytes) (file_text : Py.str),
    GOOGLE_API_KEY w = Some google_key ->
    google_key <> [] ->
    init_exception w = None ->
    button w = true ->
    uploaded_file w = Some bytes_content ->
    Py.decode_utf8 bytes_content = Some file_text ->
    forallb Py.isspace file_text = true ->
    text_area w file_text = file_text ->
    app ul w
    = ([genai_configure google_key; st_warning empty_message; st_stop], Stopped).
Proof.
  intros ul w key b f Hk Hn Hi Hb Hu Hd Hs Ht.
  rewrite app_unfold, Hk, Hi, Hb.
  destruct key as [| c key]; [contradiction|]. simpl Py.truthy. cbv iota.
  assert (F : file_text_of w = f) by (unfold file_text_of; rewrite Hu, Hd; reflexivity).
  assert (R : Py.strip (resolved w f) = []).
  { unfold resolved. apply blank_inputs_resolve_blank; [exact Hs|].
    rewrite Ht. exact Hs. }
  rewrite F, on_click_unfold, R, read_upload_unfold, Hu, Hd. reflexivity.
Qed.

Lemma blank_upload_left_untouched_is_rejected_witness :
  app Py.keep_non_ascii (untouched_world [Byte.x20; Byte.x0a])
  = ([genai_configure (Py.lit "AIza-test-key");
      st_warning empty_message; st_stop], Stopped).
Proof.
  apply (@blank_upload_left_untouched_is_rejected Py.keep_non_ascii
           (untouched_world [Byte.x20; Byte.x0a]) (Py.lit "AIza-test-key")
           [Byte.x20; Byte.x0a] [32%N; 10%N] eq_refl);
    try reflexivity; discriminate.
Defined.

Lemma safe_generate_configures_nothing (w : world) (prompt : Py.str) :
  configured (fst (safe_generate w prompt)) = [].
Proof.
  rewrite safe_generate_unfold. cbv zeta.
  destruct (gemini w 1 prompt); [reflexivity|].
  destruct (gemini w 2 prompt); [reflexivity|].
  destruct (gemini w 3 prompt); [reflexivity|].
  destruct (gemini w 4 prompt); reflexivity.
Qed.

(** X11. A key that is not the empty string is not trimmed or checked by
    the script: every run calls [genai.configure] exactly once, with the
    key as it was read, whatever happens afterwards. *)
Theorem key_configures_client_once :
  forall (ul : Py.str -> nat -> N -> list N) (w : world) (google_key : Py.str),
    GOOGLE_API_KEY w = Some google_key ->
    google_key <> [] ->
    configured (trace (app ul w)) = [google_key]
    /\ hd st_stop (trace (app ul w)) = genai_configure google_key.
Proof.
  intros ul w key Hk Hn. unfold trace. rewrite app_unfold, Hk.
  destruct key as [| c key]; [contradiction|]. simpl Py.truthy. cbv iota.
  destruct (init_exception w); [split; reflexivity|].
  assert (U : configured (fst (read_upload w)) = []).
  { rewrite read_upload_unfold.
    destruct (uploaded_file w) as [b |]; [|reflexivity].
    destruct (Py.decode_utf8 b); reflexivity. }
  destruct (button w); cbn [fst configured hd];
    rewrite configured_app, U; [|split; reflexivity].
  rewrite on_click_unfold.
  destruct (Py.truthy _); [|split; reflexivity].
  pose proof (safe_generate_configures_nothing w
                (full_prompt (resolved w (file_text_of w)))) as G.
  destruct (safe_generate w _) as [tr [answer | e]]; simpl in *;
    rewrite configured_app, G; split; reflexivity.
Qed.

Lemma key_configures_client_once_witness :
  configured (trace (app Py.keep_non_ascii (sample_world 4 sample_reply)))
  = [Py.lit "AIza-test-key"]
  /\ hd st_stop (trace (app Py.keep_non_ascii (sample_world 4 sample_reply)))
     = genai_configure (Py.lit "AIza-test-key").
Proof.
  apply (@key_configures_client_once Py.keep_non_ascii
           (sample_world 4 sample_reply) (Py.lit "AIza-test-key") eq_refl).
  discriminate.
Defined.

(** X12. The script stops early in three situations and no other: the key
    is missing or empty; the client cannot be initialised; the button is
    clicked on a blank text.  In particular a failed generation does not
    stop it. *)
Theorem script_stops_in_three_cases :
  forall (ul : Py.str -> nat -> N -> list N) (w : world),
    snd (app ul w) = Stopped
    <-> (GOOGLE_API_KEY w = None \/ GOOGLE_API_KEY w = Some [])
        \/ (exists (google_key : Py.str) (e : Exception),
              GOOGLE_API_KEY w = Some google_key
              /\ google_key <> []
              /\ init_exception w = Some e)
        \/ (exists google_key : Py.str,
              GOOGLE_API_KEY w = Some google_key
              /\ google_key <> []
              /\ init_exception w = None
              /\ button w = true
              /\ Py.strip (resolved w (file_text_of w)) = []).
Proof.
  intros ul w. rewrite app_unfold.
  destruct (GOOGLE_API_KEY w) as [key |];
    [|split; [intros _; left; left; reflexivity | reflexivity]].
  destruct key as [| c key];
    [split; [intros _; left; right; reflexivity | reflexivity]|].
  simpl Py.truthy. cbv iota.
  destruct (init_exception w) as [e |].
  { split; [|reflexivity]. intros _. right. left. exists (c :: key), e.
    repeat split. discriminate. }
  destruct (button w).
  - cbn [snd]. rewrite on_click_unfold.
    destruct (Py.strip (resolved w (file_text_of w))) as [| c0 s0] eqn:S.
    + split; [|reflexivity]. intros _. right. right. exists (c :: key).
      repeat split. discriminate.
    + simpl Py.truthy. cbv iota.
      split.
      * destruct (safe_generate w _) as [tr [answer | e]]; discriminate.
      * intros [[H | H] | [[k [e [_ [_ H]]]] | [k [_ [_ [_ [_ H]]]]]]];
          discriminate.
  - cbn [snd]. split; [discriminate|].
    intros [[H | H] | [[k [e [_ [_ H]]]] | [k [_ [_ [_ [H _]]]]]]];
      discriminate.
Qed.

Lemma script_stops_in_three_cases_witness :
  snd (app Py.keep_non_ascii keyless_world) = Stopped.
Proof.
  apply (proj2 (script_stops_in_three_cases Py.keep_non_ascii keyless_world)).
  left. left. reflexivity.
Defined.

(* ===================================================================== *)
(** ** Failure messages *)
(* ===================================================================== *)

(** X13. When all four attempts raise and the class of the last exception
    has an ASCII name, the click handler shows one error and no answer: the
    quota message if that class name holds quota, rate or limit in any
    letter case, and otherwise the generic message followed by the string
    of the [RetryError].  The message of the exception does not count. *)
Theorem exhausted_retries_classified_by_class_name :
  forall (ul : Py.str -> nat -> N -> list N) (w : world) (final : Py.str)
         (e4 : Exception),
    Py.truthy (Py.strip final) = true ->
    (forall j, (1 <= j < 4)%nat ->
               exists e, gemini w j (full_prompt final) = inr e) ->
    gemini w 4 (full_prompt final) = inr e4 ->
    forallb (fun c => c <? 128)%N (class_name e4) = true ->
    errors (trace (on_click ul w final))
    = [if existsb (fun word =>
                     Py.contains word (map Py.ascii_lower (class_name e4)))
                  keywords
       then quota_message
       else generic_message
              (Tenacity.RetryError_str
                 (Tenacity.mkRetryError
                    (Tenacity.mkFuture (future_id w 4) 4 e4)))]
    /\ written (trace (on_click ul w final)) = [].
Proof.
  intros ul w final e4 Hf H H4 Hc.
  rewrite (@exhausted_retries_message ul w final e4 Hf H H4 Hc).
  rewrite errors_app, written_app, safe_generate_writes_nothing.
  assert (E : errors (fst (safe_generate w (full_prompt final))) = []).
  { rewrite safe_generate_unfold. cbv zeta.
    destruct (gemini w 1 _); [reflexivity|].
    destruct (gemini w 2 _); [reflexivity|].
    destruct (gemini w 3 _); [reflexivity|].
    destruct (gemini w 4 _); reflexivity. }
  rewrite E. split; reflexivity.
Qed.

(** A class named after the rate limit brings the quota message. *)
Lemma exhausted_retries_classified_by_class_name_witness :
  errors (trace (on_click Py.keep_non_ascii (failing_world rate_limited)
                          sample_lab_text))
  = [quota_message]
  /\ written (trace (on_click Py.keep_non_ascii (failing_world rate_limited)
                              sample_lab_text)) = [].
Proof.
  exact (@exhausted_retries_classified_by_class_name Py.keep_non_ascii
           (failing_world rate_limited) sample_lab_text rate_limited
           eq_refl
           (fun j _ => ex_intro _ rate_limited eq_refl)
           eq_refl eq_refl).
Defined.

(** X14. The prompt is the resolved text with 302 fixed characters around
    it: the text is never cut, however long, and two different texts never
    give the same prompt. *)
Theorem full_prompt_keeps_whole_text :
  forall final other : Py.str,
    List.length (full_prompt final) = (302 + List.length final)%nat
    /\ (full_prompt final = full_prompt other -> final = other).
Proof.
  intros final other. split.
  - unfold full_prompt. rewrite !length_app.
    change (List.length system_prompt) with 252%nat.
    change (List.length prompt_header) with 26%nat.
    change (List.length prompt_footer) with 24%nat. lia.
  - unfold full_prompt. intros H.
    apply app_inv_head in H. apply app_inv_head in H.
    apply app_inv_tail in H. exact H.
Qed.

Lemma full_prompt_keeps_whole_text_witness :
  List.length (full_prompt sample_lab_text)
  = (302 + List.length sample_lab_text)%nat
  /\ sample_lab_text = Py.lit "Hemoglobin A1C: 8.2% (High)".
Proof.
  split.
  - exact (proj1 (full_prompt_keeps_whole_text sample_lab_text [])).
  - exact (proj2 (full_prompt_keeps_whole_text sample_lab_text
                    (Py.lit "Hemoglobin A1C: 8.2% (High)")) eq_refl).
Defined.

Lemma startswith_iff (word s : Py.str) :
  Py.startswith word s = true <-> exists post, s = word ++ post.
Proof.
  revert s. induction word as [| a word IH]; intros s.
  - split; [intros _; exists s; reflexivity | destruct s; reflexivity].
  - destruct s as [| b s]; simpl.
    + split; [discriminate | intros [post H]; discriminate].
    + rewrite andb_true_iff, N.eqb_eq, IH. split.
      * intros [-> [post ->]]. exists post. reflexivity.
      * intros [post H]. injection H as -> ->. split; [reflexivity | eauto].
Qed.

(** [word in s]: the word is a slice of the string. *)
Lemma contains_iff (word s : Py.str) :
  Py.contains word s = true <-> exists pre post, s = pre ++ word ++ post.
Proof.
  induction s as [| b s IH].
  - simpl. rewrite orb_false_r, startswith_iff. split.
    + intros [post H]. exists [], post. exact H.
    + intros [pre [post H]]. destruct pre; [eauto|discriminate].
  - change (Py.contains word (b :: s))
      with (Py.startswith word (b :: s) || Py.contains word s).
    rewrite orb_true_iff, startswith_iff, IH. split.
    + intros [[post H] | [pre [post H]]].
      * exists [], post. exact H.
      * exists (b :: pre), post. rewrite H. reflexivity.
    + intros [pre [post H]]. destruct pre as [| c pre].
      * left. exists post. exact H.
      * right. injection H as -> ->. eauto.
Qed.

(** X15. On an ASCII error string the click handler chooses the quota
    message exactly when quota, rate or limit occurs in the string in any
    mix of upper and lower case, be it inside a longer word; in every other
    case it shows the generic message followed by the string. *)
Theorem failure_message_matches_keyword_in_any_case :
  forall (ul : Py.str -> nat -> N -> list N) (str_e : Py.str),
    forallb (fun c => c <? 128)%N str_e = true ->
    (failure_message ul str_e = quota_message
     <-> exists word pre slice post : Py.str,
           In word keywords
           /\ str_e = pre ++ slice ++ post
           /\ map Py.ascii_lower slice = word)
    /\ (failure_message ul str_e = quota_message
        \/ failure_message ul str_e
           = 0x1F613%N :: Py.lit " Oops, something went wrong: " ++ str_e).
Proof.
  intros ul s Ha.
  assert (M : mentions_limit ul s = true
              <-> exists word pre slice post : Py.str,
                    In word keywords
                    /\ s = pre ++ slice ++ post
                    /\ map Py.ascii_lower slice = word).
  { unfold mentions_limit. rewrite (lower_ascii ul s Ha), existsb_exists.
    split.
    - intros [word [Hin Hc]]. apply contains_iff in Hc.
      destruct Hc as [pre' [post' E]].
      apply map_eq_app in E. destruct E as [pre [rest [-> [_ E]]]].
      apply map_eq_app in E. destruct E as [slice [post [-> [E _]]]].
      exists word, pre, slice, post. repeat split; assumption.
    - intros [word [pre [slice [post [Hin [-> E]]]]]].
      exists word. split; [exact Hin|]. apply contains_iff.
      exists (map Py.ascii_lower pre), (map Py.ascii_lower post).
      rewrite !map_app, E. reflexivity. }
  unfold failure_message. destruct (mentions_limit ul s).
  - split; [|left; reflexivity].
    split; [intros _; apply M; reflexivity | reflexivity].
  - split; [|right; reflexivity].
    split; [discriminate|]. intros H. apply M in H. discriminate.
Qed.

Lemma failure_message_matches_keyword_in_any_case_witness :
  failure_message Py.keep_non_ascii (Py.lit "Could not GENERATE a reply")
  = quota_message.
Proof.
  apply (proj1 (@failure_message_matches_keyword_in_any_case Py.keep_non_ascii
                  (Py.lit "Could not GENERATE a reply") eq_refl)).
  exists (Py.lit "rate"), (Py.lit "Could not GENE"), (Py.lit "RATE"),
         (Py.lit " a reply").
  repeat split. simpl. tauto.
Defined.

(* ===================================================================== *)
(** ** The retry loop for any stop limit *)
(* ===================================================================== *)

Lemma retrying_outcome (A : Type) (m : nat) (wait : nat -> Q)
    (fn : nat -> list action * (A + Exception)) (fid : nat -> N) (d : nat) :
  forall n : nat,
    (m - n <= d)%nat ->
    (forall x : A,
        snd (Tenacity.call m wait fn fid n) = inl x ->
        exists k : nat,
          (n <= k <= Nat.max n m)%nat
          /\ snd (fn k) = inl x
          /\ forall j, (n <= j < k)%nat -> exists e, snd (fn j) = inr e)
    /\ (forall err : Tenacity.RetryError,
        snd (Tenacity.call m wait fn fid n) = inr err ->
        exists e_last : Exception,
          snd (fn (Nat.max n m)) = inr e_last
          /\ err = Tenacity.mkRetryError
                     (Tenacity.mkFuture (fid (Nat.max n m)) (Nat.max n m) e_last)
          /\ forall j, (n <= j <= Nat.max n m)%nat ->
                       exists e, snd (fn j) = inr e).
Proof.
  induction d as [| d IH]; intros n Hd; rewrite call_unfold;
    destruct (fn n) as [tr [x | e]] eqn:F.
  - split; [|discriminate]. intros y [= <-]. exists n.
    split; [lia|]. split; [rewrite F; reflexivity | intros j Hj; lia].
  - assert (S : Tenacity.stop_after_attempt m n = true)
      by (apply Nat.leb_le; lia).
    rewrite S. split; [discriminate|]. intros err [= <-].
    replace (Nat.max n m) with n by lia. exists e.
    split; [rewrite F; reflexivity|]. split; [reflexivity|].
    intros j Hj. assert (j = n) as -> by lia. rewrite F. exists e. reflexivity.
  - split; [|discriminate]. intros y [= <-]. exists n.
    split; [lia|]. split; [rewrite F; reflexivity | intros j Hj; lia].
  - destruct (Tenacity.stop_after_attempt m n) eqn:S.
    + apply Nat.leb_le in S. split; [discriminate|]. intros err [= <-].
      replace (Nat.max n m) with n by lia. exists e.
      split; [rewrite F; reflexivity|]. split; [reflexivity|].
      intros j Hj. assert (j = n) as -> by lia. rewrite F. exists e. reflexivity.
    + apply Nat.leb_gt in S. cbv zeta. cbn [snd].
      destruct (IH (Datatypes.S n) ltac:(lia)) as [Ia Ib].
      replace (Nat.max (Datatypes.S n) m) with (Nat.max n m) in * by lia.
      split.
      * intros y Hy. destruct (Ia y Hy) as [k [Hk [Hr Hf]]].
        exists k. split; [lia|]. split; [exact Hr|].
        intros j Hj. destruct (Nat.eq_dec j n) as [-> | Hne].
        -- rewrite F. exists e. reflexivity.
        -- apply Hf. lia.
      * intros err He. destruct (Ib err He) as [e_last [Hl [E Hf]]].
        exists e_last. split; [exact Hl|]. split; [exact E|].
        intros j Hj. destruct (Nat.eq_dec j n) as [-> | Hne].
        -- rewrite F. exists e. reflexivity.
        -- apply Hf. lia.
Qed.

(** X16. The retry loop, for any stop limit [m] and any wrapped function,
    started at attempt 1: a result is the result of the first attempt that
    does not raise, which is at most attempt [max 1 m]; the loop raises
    only when all attempts up to [max 1 m] raised, and its [RetryError]
    then holds the future of attempt [max 1 m] with the exception that
    this attempt raised.  A limit of 0 still makes one attempt. *)
Theorem retrying_returns_first_result_or_last_failure :
  forall (A : Type) (m : nat) (wait : nat -> Q)
         (fn : nat -> list action * (A + Exception)) (fid : nat -> N),
    (forall x : A,
        snd (Tenacity.call m wait fn fid 1) = inl x ->
        exists k : nat,
          (1 <= k <= Nat.max 1 m)%nat
          /\ snd (fn k) = inl x
          /\ forall j, (1 <= j < k)%nat -> exists e, snd (fn j) = inr e)
    /\ (forall err : Tenacity.RetryError,
        snd (Tenacity.call m wait fn fid 1) = inr err ->
        exists e_last : Exception,
          snd (fn (Nat.max 1 m)) = inr e_last
          /\ err = Tenacity.mkRetryError
                     (Tenacity.mkFuture (fid (Nat.max 1 m)) (Nat.max 1 m) e_last)
          /\ forall j, (1 <= j <= Nat.max 1 m)%nat ->
                       exists e, snd (fn j) = inr e).
Proof.
  intros A m wait fn fid.
  apply (@retrying_outcome A m wait fn fid (m - 1) 1%nat). lia.
Qed.

Lemma retrying_returns_first_result_or_last_failure_witness :
  exists k : nat,
    (1 <= k <= Nat.max 1 4)%nat
    /\ snd (safe_generate_body (sample_world 3 sample_reply)
                               (full_prompt sample_lab_text) k)
       = inl sample_reply
    /\ forall j, (1 <= j < k)%nat ->
         exists e, snd (safe_generate_body (sample_world 3 sample_reply)
                                           (full_prompt sample_lab_text) j)
                   = inr e.
Proof.
  apply (proj1 (@retrying_returns_first_result_or_last_failure Py.str 4
                  (fun n => Tenacity.wait_random_exponential 12 60 (1 # 2) n)
                  (safe_generate_body (sample_world 3 sample_reply)
                                      (full_prompt sample_lab_text))
                  (fun _ => 0x7f3a5c0b1d90%N))).
  reflexivity.
Defined.

(* ===================================================================== *)
(** ** Empty answers *)
(* ===================================================================== *)

(** X17. The script does not look at what the model answered: when the
    first response is empty or white space only, the run still shows the
    success banner, and the answer displayed is the empty string. *)
Theorem blank_response_is_shown_as_empty_answer :
  forall (ul : Py.str -> nat -> N -> list N) (w : world)
         (google_key text : Py.str),
    GOOGLE_API_KEY w = Some google_key ->
    google_key <> [] ->
    init_exception w = None ->
    button w = true ->
    Py.strip (resolved w (file_text_of w)) <> [] ->
    gemini w 1 (full_prompt (resolved w (file_text_of w))) = inl text ->
    forallb Py.isspace text = true ->
    app ul w
    = (genai_configure google_key
         :: fst (read_upload w)
         ++ [generate_content (full_prompt (resolved w (file_text_of w)))
                              (25 # 100) 512;
             st_success success_message;
             st_write []],
       Continue tt).
Proof.
  intros ul w key text Hk Hn Hi Hb Hs Hg Ht.
  rewrite app_unfold, Hk, Hi, Hb.
  destruct key as [| c key]; [contradiction|]. simpl Py.truthy. cbv iota.
  rewrite on_click_unfold.
  destruct (Py.strip (resolved w (file_text_of w))) as [| c0 s0];
    [contradiction|]. simpl Py.truthy. cbv iota.
  rewrite safe_generate_unfold. cbv zeta. rewrite Hg.
  apply strip_nil_iff in Ht. rewrite Ht. reflexivity.
Qed.

Lemma blank_response_is_shown_as_empty_answer_witness :
  app Py.keep_non_ascii (sample_world 0 [32%N; 10%N])
  = ([genai_configure (Py.lit "AIza-test-key");
      generate_content (full_prompt sample_lab_text) (25 # 100) 512;
      st_success success_message;
      st_write []],
     Continue tt).
Proof.
  apply (@blank_response_is_shown_as_empty_answer Py.keep_non_ascii
           (sample_world 0 [32%N; 10%N]) (Py.lit "AIza-test-key") [32%N; 10%N]
           eq_refl);
    try reflexivity; discriminate.
Defined.
